(** * Servo command bridge: the four scripts of client/scripts

    A shallow embedding of
      - servo_reciever.py        (HTTP receiver,      [Module Receiver])
      - servo_receiver_ws.py     (WebSocket receiver, [Module ReceiverWs])
      - tonypi_servo_server.py   (HTTP dev bridge,    [Module TonyPi])
      - servo_client.py          (interactive client, [Module Client])

    Python values decoded from JSON are an inductive type, exceptions are an
    error type, and the side effects (driver calls, printed lines, reads and
    sleeps) are collected in a trace next to the result.

    Numbers.  A Python float is modelled as an exact rational or one of the
    three special values; the rounding error and the finite range of binary64
    are not modelled.  Python integers are [Z]. *)

From Stdlib Require Import ZArith QArith Qround Qfield List String Bool Lia Lqa.
Import ListNotations.

Local Open Scope Z_scope.

(** ** Python values *)

Module Py.

Inductive exn :=
| JSONDecodeError | AttributeError | TypeError | ValueError | OverflowError
| KeyError | ImportError | RuntimeError | OSError | TimeoutError.

Inductive result (A : Type) :=
| Ok (a : A)
| Raise (e : exn).
Arguments Ok {A} a.
Arguments Raise {A} e.

Inductive pyfloat :=
| Fin (q : Q)
| PInf
| NInf
| NaN.

(** A Python [str].  The two builtins that parse numbers out of a string,
    [float(s)] and [int(s)], are not re-implemented: the string carries what
    they return on it ([None] when they raise [ValueError]). *)
Record pystr := Str {
  text : string;
  float_of : option pyfloat;
  int_of : option Z
}.

(** A string none of the number parsers accept, such as the keys and tags of
    the protocol. *)
Definition lit (s : string) : pystr := Str s None None.

#[warnings="-register-all"]
Inductive pyval :=
| VNone
| VBool (b : bool)
| VInt (z : Z)
| VFloat (f : pyfloat)
| VStr (s : pystr)
| VList (l : list pyval)
| VDict (d : list (pystr * pyval)).

(** *** Ordering, [min] and [max]

    [min(a, b)] keeps [a] unless [b < a]; [max(a, b)] keeps [a] unless
    [b > a].  Every comparison with NaN is false. *)

Class PyOrd (A : Type) := py_ltb : A -> A -> bool.

#[global] Instance PyOrd_Z : PyOrd Z := Z.ltb.

Definition Qltb (x y : Q) : bool :=
  match Qcompare x y with Lt => true | _ => false end.

#[global] Instance PyOrd_Q : PyOrd Q := Qltb.

Definition flt_ltb (a b : pyfloat) : bool :=
  match a, b with
  | NaN, _ | _, NaN => false
  | _, NInf => false
  | NInf, _ => true
  | PInf, _ => false
  | Fin _, PInf => true
  | Fin x, Fin y => Qltb x y
  end.

#[global] Instance PyOrd_float : PyOrd pyfloat := flt_ltb.

Definition py_min {A} `{PyOrd A} (a b : A) : A := if py_ltb b a then b else a.
Definition py_max {A} `{PyOrd A} (a b : A) : A := if py_ltb a b then b else a.

(** *** Conversions: [float(x)], [int(x)], [round(x)] *)

Definition Z_of_bool (b : bool) : Z := if b then 1 else 0.

Definition py_float (v : pyval) : result pyfloat :=
  match v with
  | VBool b => Ok (Fin (inject_Z (Z_of_bool b)))
  | VInt z => Ok (Fin (inject_Z z))
  | VFloat f => Ok f
  | VStr s => match float_of s with Some f => Ok f | None => Raise ValueError end
  | VNone | VList _ | VDict _ => Raise TypeError
  end.

(** Truncation toward zero, as [int] does on a float. *)
Definition Qtrunc (q : Q) : Z := Z.quot (Qnum q) (Zpos (Qden q)).

(** Round half to even, as [round] does on a float. *)
Definition round_half_even (q : Q) : Z :=
  let f := Qfloor q in
  match Qcompare (q - inject_Z f) (1 # 2) with
  | Lt => f
  | Gt => f + 1
  | Eq => if Z.even f then f else f + 1
  end.

Definition int_of_float (f : pyfloat) : result Z :=
  match f with
  | Fin q => Ok (Qtrunc q)
  | NaN => Raise ValueError
  | PInf | NInf => Raise OverflowError
  end.

Definition round_float (f : pyfloat) : result Z :=
  match f with
  | Fin q => Ok (round_half_even q)
  | NaN => Raise ValueError
  | PInf | NInf => Raise OverflowError
  end.

Definition py_int (v : pyval) : result Z :=
  match v with
  | VBool b => Ok (Z_of_bool b)
  | VInt z => Ok z
  | VFloat f => int_of_float f
  | VStr s => match int_of s with Some z => Ok z | None => Raise ValueError end
  | VNone | VList _ | VDict _ => Raise TypeError
  end.

Definition py_round (v : pyval) : result Z :=
  match v with
  | VBool b => Ok (Z_of_bool b)
  | VInt z => Ok z
  | VFloat f => round_float f
  | VNone | VStr _ | VList _ | VDict _ => Raise TypeError
  end.

(** [round(x, 1)]: to one decimal, half to even; on a float it returns a
    float. *)
Definition round_1 (f : pyfloat) : pyfloat :=
  match f with
  | Fin q => Fin (inject_Z (round_half_even (q * 10)) / 10)
  | _ => f
  end.

(** Multiplication and division of a float by a positive finite constant. *)
Definition flt_mul (f : pyfloat) (k : Q) : pyfloat :=
  match f with Fin q => Fin (q * k) | _ => f end.
Definition flt_div (f : pyfloat) (k : Q) : pyfloat :=
  match f with Fin q => Fin (q / k) | _ => f end.
Definition flt_add (k : Q) (f : pyfloat) : pyfloat :=
  match f with Fin q => Fin (k + q) | _ => f end.

(** *** Dictionaries *)

Fixpoint dict_get (d : list (pystr * pyval)) (k : string) : option pyval :=
  match d with
  | [] => None
  | (k', v) :: d' => if String.eqb (text k') k then Some v else dict_get d' k
  end.

(** [x.get(k)] and [x.get(k, default)]: only a dict has the method. *)
Definition py_get (x : pyval) (k : string) (default : pyval) : result pyval :=
  match x with
  | VDict d => Ok (match dict_get d k with Some v => v | None => default end)
  | _ => Raise AttributeError
  end.

(** [v == "s"] for a string literal [s]. *)
Definition is_str (v : pyval) (s : string) : bool :=
  match v with
  | VStr t => String.eqb (text t) s
  | _ => false
  end.

End Py.
Import Py.

(** ** Effects: a trace of events next to a result or an exception *)

Inductive drv_method :=
| set_bus_servo_pulse | setBusServoPulse
| set_pwm_servo_pulse | setPWMServoPulse.

Definition is_bus_method (m : drv_method) : bool :=
  match m with
  | set_bus_servo_pulse | setBusServoPulse => true
  | _ => false
  end.

(** What is printed; one constructor stands for a line or for the block of
    lines printed together. *)
Inductive log :=
| LogSdkLoaded | LogNoSdk | LogBanner | LogListening
| LogResetStart | LogResetDone
| LogServoError (servo_id : Z) (e : exn)
| LogPwmError (channel : Z) (e : exn)
| LogReceived
| LogError (e : exn)
| LogClientConnected | LogClientDisconnected
| LogMissingWebsockets | LogShutdown | LogBackend
| LogSent | LogPong | LogUnexpected.

Inductive event :=
| EvDrv (m : drv_method) (a b c : Z)   (* a call of the vendor driver *)
| EvPrint (l : log)                    (* a printed line *)
| EvRead (n : Z)                       (* rfile.read(n) *)
| EvSleep                              (* time.sleep *)
| EvSetLastLog (now : Q)               (* ServoHandler.last_log_time = now *)
| EvSend (v : pyval)                   (* websocket.send(json.dumps(v)) *)
| EvServe.                             (* the server starts taking requests *)

Definition eff (A : Type) : Type := list event * result A.

Definition ret {A} (a : A) : eff A := ([], Ok a).
Definition raise {A} (e : exn) : eff A := ([], Raise e).
Definition emit (ev : event) : eff unit := ([ev], Ok tt).
Definition lift {A} (r : result A) : eff A := ([], r).

Definition bind {A B} (m : eff A) (f : A -> eff B) : eff B :=
  match m with
  | (t, Ok a) => let (t', r) := f a in (t ++ t', r)
  | (t, Raise e) => (t, Raise e)
  end.

(** [try: m except Exception as e: h e] *)
Definition catch {A} (m : eff A) (h : exn -> eff A) : eff A :=
  match m with
  | (t, Raise e) => let (t', r) := h e in (t ++ t', r)
  | _ => m
  end.

Notation "x <- m ;; k" := (bind m (fun x => k))
  (at level 61, m at next level, right associativity).
Notation "' p <- m ;; k" := (bind m (fun x => match x with p => k end))
  (at level 61, p pattern, m at next level, right associativity).
Notation "m ;;; k" := (bind m (fun _ => k))
  (at level 61, right associativity).

Definition when (b : bool) (m : eff unit) : eff unit := if b then m else ret tt.

(** [for x in xs: body x] *)
Fixpoint for_each {A} (xs : list A) (body : A -> eff unit) : eff unit :=
  match xs with
  | [] => ret tt
  | x :: xs' => body x ;;; for_each xs' body
  end.

(** [enumerate(xs, start)] *)
Fixpoint enumerate {A} (start : Z) (xs : list A) : list (Z * A) :=
  match xs with
  | [] => []
  | x :: xs' => (start, x) :: enumerate (start + 1) xs'
  end.

Definition trace {A} (m : eff A) : list event := fst m.
Definition outcome {A} (m : eff A) : result A := snd m.

Definition is_drv (ev : event) : bool :=
  match ev with EvDrv _ _ _ _ => true | _ => false end.

(** The driver calls of a trace, in order. *)
Definition drv_calls (t : list event) : list event := filter is_drv t.

(** ** The vendor driver

    The object bound to [controller] (or [Board], [ctl]): which of the four
    methods it has, and whether a call of one raises. *)
Record sdk := Sdk {
  has : drv_method -> bool;
  raises : drv_method -> Z -> Z -> Z -> option exn
}.

Definition drv_call (c : sdk) (m : drv_method) (a b t : Z) : eff unit :=
  emit (EvDrv m a b t) ;;;
  match raises c m a b t with
  | Some e => raise e
  | None => ret tt
  end.

Definition hasattr (c : option sdk) (m : drv_method) : bool :=
  match c with Some o => has o m | None => false end.

(** [c.m(a, b, t)]: an object without the method (or [None]) raises
    [AttributeError] and the driver is not reached. *)
Definition call (c : option sdk) (m : drv_method) (a b t : Z) : eff unit :=
  match c with
  | Some o => if has o m then drv_call o m a b t else raise AttributeError
  | None => raise AttributeError
  end.

(** [clamp(v, lo, hi) = max(lo, min(hi, v))], the same in the three servers. *)
Definition clamp {A} `{PyOrd A} (v lo hi : A) : A := py_max lo (py_min hi v).

(** ** HTTP requests and responses, as [BaseHTTPRequestHandler] hands them over *)

Module Http.

(** [content_length] is [int(self.headers.get("Content-Length", 0))];
    [payload] is [json.loads] of the body that [rfile.read] returns, decoded
    as UTF-8: a value, or the exception of the decoder or the parser. *)
Record request := Request {
  path : string;
  content_length : result Z;
  payload : result pyval
}.

Record response := Response {
  status : Z;
  headers : list (string * string);
  body : option exn          (* json.dumps({"error": str(e)}) *)
}.

Definition cors : list (string * string) :=
  [("Access-Control-Allow-Origin", "*");
   ("Access-Control-Allow-Methods", "POST, OPTIONS");
   ("Access-Control-Allow-Headers", "Content-Type")]%string.

Definition no_content : response := Response 204 cors None.
Definition not_found : response := Response 404 cors None.
Definition bad_request (e : exn) : response :=
  Response 400 (cors ++ [("Content-Type"%string, "application/json"%string)])
    (Some e).

End Http.

(** ** servo_reciever.py *)

Module Receiver.

(** The two module globals set by the import probe. *)
Record globals := Globals {
  ROBOT_AVAILABLE : bool;
  controller : option sdk
}.

(** What an [import] of a vendor module (and, for the first probe, the
    construction [Controller(rrc.Board())]) does. *)
Inductive probe :=
| Loaded (c : sdk)
| Fails (e : exn).

Definition is_import_error (e : exn) : bool :=
  match e with ImportError => true | _ => false end.

(** Lines 25-42: only [ImportError] is handled; anything else escapes and ends
    the process. *)
Definition module_init (hiwonder hiwonder_sdk : probe) : eff globals :=
  match hiwonder with
  | Loaded c => emit (EvPrint LogSdkLoaded) ;;; ret (Globals true (Some c))
  | Fails e =>
      if is_import_error e then
        match hiwonder_sdk with
        | Loaded c => emit (EvPrint LogSdkLoaded) ;;; ret (Globals true (Some c))
        | Fails e' =>
            if is_import_error e' then
              emit (EvPrint LogNoSdk) ;;; ret (Globals false None)
            else raise e'
        end
      else raise e
  end.

Definition degrees_to_pulse (deg : pyval) : eff Z :=
  d <- lift (py_float deg) ;;
  let deg := clamp d (Fin 0) (Fin 180) in
  lift (round_float (flt_mul (flt_div deg 180) 1000)).

Definition degrees_to_pwm_us (deg : pyval) : eff Z :=
  d <- lift (py_float deg) ;;
  let deg := clamp d (Fin 0) (Fin 180) in
  lift (round_float (flt_add 500 (flt_mul (flt_div deg 180) 2000))).

Section WithGlobals.
Variable g : globals.

(** The arguments are Python integers at every call site. *)
Definition set_bus_servo (servo_id pulse time_ms : Z) : eff unit :=
  let pulse := clamp pulse 0 1000 in
  let time_ms := py_max 0 time_ms in
  if negb (ROBOT_AVAILABLE g) then ret tt
  else
    catch
      (if hasattr (controller g) set_bus_servo_pulse then
         call (controller g) set_bus_servo_pulse servo_id pulse time_ms
       else if hasattr (controller g) setBusServoPulse then
         call (controller g) setBusServoPulse servo_id pulse time_ms
       else ret tt)
      (fun e => emit (EvPrint (LogServoError servo_id e))).

Definition set_pwm_servo (channel pulse_us time_ms : Z) : eff unit :=
  let pulse_us := clamp pulse_us 500 2500 in
  let time_ms := py_max 0 time_ms in
  if negb (ROBOT_AVAILABLE g) then ret tt
  else
    catch
      (if hasattr (controller g) set_pwm_servo_pulse then
         call (controller g) set_pwm_servo_pulse channel pulse_us time_ms
       else if hasattr (controller g) setPWMServoPulse then
         call (controller g) setPWMServoPulse channel pulse_us time_ms
       else ret tt)
      (fun e => emit (EvPrint (LogPwmError channel e))).

(** [range(1, 17)] *)
Definition servo_ids : list Z := map Z.of_nat (seq 1 16).

Definition reset_to_neutral (time_ms : Z) : eff unit :=
  emit (EvPrint LogResetStart) ;;;
  for_each servo_ids (fun servo_id => set_bus_servo servo_id 500 time_ms) ;;;
  set_pwm_servo 1 1500 time_ms ;;;
  set_pwm_servo 2 1500 time_ms ;;;
  emit (EvPrint LogResetDone).

(** [[f(x) for x in xs]] *)
Fixpoint map_result {A B} (f : A -> result B) (xs : list A) : result (list B) :=
  match xs with
  | [] => Ok []
  | x :: xs' =>
      match f x with
      | Raise e => Raise e
      | Ok y => match map_result f xs' with
                | Raise e => Raise e
                | Ok ys => Ok (y :: ys)
                end
      end
  end.

(** The head part of a dense command (lines 166-171). *)
Definition apply_head (head : pyval) : eff unit :=
  match head with
  | VDict h =>
      match dict_get h "p1" with
      | Some v => us <- degrees_to_pwm_us v ;; set_pwm_servo 1 us 80
      | None => ret tt
      end ;;;
      match dict_get h "p2" with
      | Some v => us <- degrees_to_pwm_us v ;; set_pwm_servo 2 us 80
      | None => ret tt
      end
  | _ => ret tt
  end.

(** The body of the [try] of [do_POST] (lines 147-179); [last_log_time] is the
    class attribute [ServoHandler.last_log_time], [now] what [time.time()]
    returns. *)
Definition do_POST_try (last_log_time now : Q) (req : Http.request) : eff unit :=
  content_length <- lift (Http.content_length req) ;;
  msg <- (if content_length =? 0 then ret (VDict [])
          else emit (EvRead content_length) ;;; lift (Http.payload req)) ;;
  kind <- lift (py_get msg "kind" VNone) ;;
  if negb (is_str kind "humanoid16") then raise ValueError
  else
    degrees <- lift (py_get msg "degrees" (VList [])) ;;
    match degrees with
    | VList ds =>
        if negb (Nat.eqb (List.length ds) 16) then raise ValueError
        else
          for_each (enumerate 0 ds)
            (fun '(i, deg) =>
               let servo_id := i + 1 in
               pulse <- degrees_to_pulse deg ;;
               set_bus_servo servo_id pulse 80) ;;;
          head <- lift (py_get msg "head" VNone) ;;
          apply_head head ;;;
          if negb (Qle_bool (now - last_log_time) 1) then
            emit (EvSetLastLog now) ;;;
            lift (map_result py_round (firstn 4 ds)) ;;;
            emit (EvPrint LogReceived)
          else ret tt
    | _ => raise ValueError
    end.

Definition do_POST (last_log_time now : Q) (req : Http.request)
  : list event * Http.response :=
  if negb (String.eqb (Http.path req) "/servo") then ([], Http.not_found)
  else
    match do_POST_try last_log_time now req with
    | (t, Ok _) => (t, Http.no_content)
    | (t, Raise e) => (t ++ [EvPrint (LogError e)], Http.bad_request e)
    end.

Definition do_OPTIONS : Http.response := Http.no_content.

(** The value of [ServoHandler.last_log_time] after a request. *)
Fixpoint last_log_time_after (t : list event) (last : Q) : Q :=
  match t with
  | [] => last
  | EvSetLastLog now :: t' => last_log_time_after t' now
  | _ :: t' => last_log_time_after t' last
  end.

(** The server is a plain [HTTPServer]: requests are handled one after another.
    Each comes with the reading of the clock during its handling. *)
Fixpoint serve (last_log_time : Q) (reqs : list (Q * Http.request))
  : list (list event * Http.response) :=
  match reqs with
  | [] => []
  | (now, req) :: reqs' =>
      let r := do_POST last_log_time now req in
      r :: serve (last_log_time_after (fst r) last_log_time) reqs'
  end.

(** [main], up to [server.serve_forever()]. *)
Definition main (no_reset : bool) : eff unit :=
  emit (EvPrint LogBanner) ;;;
  (if negb no_reset && ROBOT_AVAILABLE g then
     reset_to_neutral 1000 ;;; emit EvSleep
   else ret tt) ;;;
  emit (EvPrint LogListening) ;;;
  emit EvServe.

(** The handler of SIGINT and SIGTERM, up to [sys.exit(0)]. *)
Definition shutdown_handler : eff unit :=
  emit (EvPrint LogShutdown) ;;;
  if ROBOT_AVAILABLE g then reset_to_neutral 500 else ret tt.

End WithGlobals.

(** The whole start of the process: the import probe, then [main]. *)
Definition start (hiwonder hiwonder_sdk : probe) (no_reset : bool) : eff unit :=
  g <- module_init hiwonder hiwonder_sdk ;;
  main g no_reset.

End Receiver.

(** ** servo_receiver_ws.py *)

Module ReceiverWs.

(** The import probe (lines 26-40) is the text of servo_reciever.py. *)
Definition globals := Receiver.globals.
Definition module_init := Receiver.module_init.
Definition ROBOT_AVAILABLE := Receiver.ROBOT_AVAILABLE.
Definition controller := Receiver.controller.

Definition degrees_to_pulse (deg : pyval) : eff Z :=
  d <- lift (py_float deg) ;;
  let deg := clamp d (Fin 0) (Fin 180) in
  lift (round_float (flt_mul (flt_div deg 180) 1000)).

Definition degrees_to_pwm_us (deg : pyval) : eff Z :=
  d <- lift (py_float deg) ;;
  let deg := clamp d (Fin 0) (Fin 180) in
  lift (round_float (flt_add 500 (flt_mul (flt_div deg 180) 2000))).

Section WithGlobals.
Variable g : globals.

Definition set_bus_servo (servo_id pulse time_ms : Z) : eff unit :=
  let pulse := clamp pulse 0 1000 in
  let time_ms := py_max 0 time_ms in
  if negb (ROBOT_AVAILABLE g) then ret tt
  else if hasattr (controller g) set_bus_servo_pulse then
    call (controller g) set_bus_servo_pulse servo_id pulse time_ms
  else if hasattr (controller g) setBusServoPulse then
    call (controller g) setBusServoPulse servo_id pulse time_ms
  else ret tt.

Definition set_pwm_servo (channel pulse_us time_ms : Z) : eff unit :=
  let pulse_us := clamp pulse_us 500 2500 in
  let time_ms := py_max 0 time_ms in
  if negb (ROBOT_AVAILABLE g) then ret tt
  else if hasattr (controller g) set_pwm_servo_pulse then
    call (controller g) set_pwm_servo_pulse channel pulse_us time_ms
  else if hasattr (controller g) setPWMServoPulse then
    call (controller g) setPWMServoPulse channel pulse_us time_ms
  else ret tt.

(** The head part of a sparse frame (lines 93-98) and of a dense one
    (lines 108-113). *)
Definition sparse_head (head : pyval) : eff unit :=
  match head with
  | VDict h =>
      match dict_get h "p1" with
      | Some v => us <- lift (py_int v) ;; set_pwm_servo 1 us 80
      | None => ret tt
      end ;;;
      match dict_get h "p2" with
      | Some v => us <- lift (py_int v) ;; set_pwm_servo 2 us 80
      | None => ret tt
      end
  | _ => ret tt
  end.

Definition dense_head (head : pyval) : eff unit :=
  match head with
  | VDict h =>
      match dict_get h "p1" with
      | Some v => us <- degrees_to_pwm_us v ;; set_pwm_servo 1 us 80
      | None => ret tt
      end ;;;
      match dict_get h "p2" with
      | Some v => us <- degrees_to_pwm_us v ;; set_pwm_servo 2 us 80
      | None => ret tt
      end
  | _ => ret tt
  end.

(** One turn of the loop [async for message in websocket] (lines 85-113);
    [message] is what [json.loads] makes of the frame.  Returning is
    [continue] or the end of the body. *)
Definition on_message (message : result pyval) : eff unit :=
  data <- lift message ;;
  msg_type <- lift (py_get data "type" VNone) ;;
  if is_str msg_type "servos" then
    servos <- lift (py_get data "servos" VNone) ;;
    match servos with
    | VDict d =>
        for_each d
          (fun '(sid, pulse) =>
             i <- lift (py_int (VStr sid)) ;;
             p <- lift (py_int pulse) ;;
             set_bus_servo i p 80)
    | _ => ret tt
    end ;;;
    head <- lift (py_get data "head" VNone) ;;
    sparse_head head
  else
    kind <- lift (py_get data "kind" VNone) ;;
    if negb (is_str kind "humanoid16") then ret tt
    else
      degrees <- lift (py_get data "degrees" VNone) ;;
      match degrees with
      | VList ds =>
          if negb (Nat.eqb (List.length ds) 16) then ret tt
          else
            for_each (enumerate 0 ds)
              (fun '(i, deg) =>
                 pulse <- degrees_to_pulse deg ;;
                 set_bus_servo (i + 1) pulse 80) ;;;
            head <- lift (py_get data "head" VNone) ;;
            dense_head head
      | _ => ret tt
      end.

(** [handler(websocket)]: the [try] encloses the whole loop, so the first
    exception leaves the loop; when the coroutine returns the connection is
    closed. *)
Definition handler (frames : list (result pyval)) : list event :=
  trace (emit (EvPrint LogClientConnected) ;;;
         catch (for_each frames on_message)
               (fun e => emit (EvPrint (LogError e))) ;;;
         emit (EvPrint LogClientDisconnected)).

End WithGlobals.

(** [main(port)], up to the point where [websockets.serve] is listening. *)
Definition main (websockets : bool) : eff unit :=
  if negb websockets then emit (EvPrint LogMissingWebsockets)
  else emit (EvPrint LogListening) ;;; emit EvServe.

Definition start (hiwonder hiwonder_sdk : Receiver.probe) (websockets : bool)
  : eff unit :=
  module_init hiwonder hiwonder_sdk ;;; main websockets.

End ReceiverWs.

(** ** tonypi_servo_server.py *)

Module TonyPi.

Definition deg_to_bus_pos (deg : pyval) : eff Z :=
  d <- lift (py_float deg) ;;
  let d := clamp d (Fin 0) (Fin 180) in
  lift (round_float (flt_mul (flt_div d 180) 1000)).

Definition deg_to_pwm_us (deg : pyval) : eff Z :=
  d <- lift (py_float deg) ;;
  let d := clamp d (Fin 0) (Fin 180) in
  lift (round_float (flt_add 500 (flt_mul (flt_div d 180) 2000))).

Inductive controller_mode := unknown | HiwonderSDK_Board | hiwonder_Controller.

Record TonyPiController := Controller {
  mode : controller_mode;
  board : option sdk;
  ctl : option sdk
}.

(** [TonyPiController.__init__]: [HiwonderSDK] is tried first, then the
    hiwonder stack; any exception of an attempt is swallowed, and when both
    fail the constructor raises. *)
Definition TonyPiController_init (hiwonder_sdk hiwonder : Receiver.probe)
  : eff TonyPiController :=
  match hiwonder_sdk with
  | Receiver.Loaded b => ret (Controller HiwonderSDK_Board (Some b) None)
  | Receiver.Fails _ =>
      match hiwonder with
      | Receiver.Loaded c => ret (Controller hiwonder_Controller None (Some c))
      | Receiver.Fails _ => raise RuntimeError
      end
  end.

Definition set_bus_servo (self : TonyPiController) (servo_id pos duration_ms : Z)
  : eff unit :=
  let sid := servo_id in
  let p := clamp pos 0 1000 in
  let t := py_max 0 duration_ms in
  match mode self with
  | HiwonderSDK_Board => call (board self) setBusServoPulse sid p t
  | hiwonder_Controller => call (ctl self) set_bus_servo_pulse sid p t
  | unknown => raise RuntimeError
  end.

Definition set_pwm_servo (self : TonyPiController) (channel us duration_ms : Z)
  : eff unit :=
  let ch := channel in
  let pulse := clamp us 500 2500 in
  let t := py_max 0 duration_ms in
  match mode self with
  | HiwonderSDK_Board => call (board self) setPWMServoPulse ch pulse t
  | hiwonder_Controller => call (ctl self) set_pwm_servo_pulse ch pulse t
  | unknown => raise RuntimeError
  end.

(** [parse_payload], on what [json.loads(body.decode("utf-8") or "{}")]
    returns. *)
Definition parse_payload (loaded : result pyval)
  : result (list pyfloat * option (pyfloat * pyfloat)) :=
  match loaded with
  | Raise e => Raise e
  | Ok msg =>
      match py_get msg "kind" VNone with
      | Raise e => Raise e
      | Ok kind =>
          if negb (is_str kind "humanoid16") then Raise ValueError
          else
            match py_get msg "degrees" VNone with
            | Raise e => Raise e
            | Ok (VList deg) =>
                if negb (Nat.eqb (List.length deg) 16) then Raise ValueError
                else
                  match Receiver.map_result py_float deg with
                  | Raise e => Raise e
                  | Ok degrees =>
                      match py_get msg "head" VNone with
                      | Raise e => Raise e
                      | Ok (VDict head) =>
                          match dict_get head "p1", dict_get head "p2" with
                          | Some p1, Some p2 =>
                              match py_float p1 with
                              | Raise e => Raise e
                              | Ok f1 =>
                                  match py_float p2 with
                                  | Raise e => Raise e
                                  | Ok f2 => Ok (degrees, Some (f1, f2))
                                  end
                              end
                          | _, _ => Ok (degrees, None)
                          end
                      | Ok _ => Ok (degrees, None)
                      end
                  end
            | Ok _ => Raise ValueError
            end
      end
  end.

(** The instance attributes of a [Handler].  The class body only annotates
    them, so each exists once it has been assigned and reading it earlier
    raises [AttributeError]. *)
Record Handler := Build_Handler {
  controller : option TonyPiController;
  move_ms : option Z;
  last_at : option Q;
  min_interval_s : option Q
}.

Definition attr {A} (a : option A) : eff A :=
  match a with Some x => ret x | None => raise AttributeError end.

Definition set_last_at (self : Handler) (now : Q) : Handler :=
  Build_Handler (controller self) (move_ms self) (Some now) (min_interval_s self).

(** The body of the [try] of [do_POST] (lines 155-171). *)
Definition do_POST_try (self : Handler) (req : Http.request) : eff Http.response :=
  n <- lift (Http.content_length req) ;;
  loaded <- (if 0 <? n then emit (EvRead n) ;;; ret (Http.payload req)
             else ret (Ok (VDict []))) ;;
  '(degrees, head) <- lift (parse_payload loaded) ;;
  for_each (enumerate 1 degrees)
    (fun '(i, d) =>
       pos <- deg_to_bus_pos (VFloat d) ;;
       c <- attr (controller self) ;;
       m <- attr (move_ms self) ;;
       set_bus_servo c i pos m) ;;;
  match head with
  | Some (p1, p2) =>
      (c <- attr (controller self) ;;
       us <- deg_to_pwm_us (VFloat p1) ;;
       m <- attr (move_ms self) ;;
       set_pwm_servo c 1 us m) ;;;
      (c <- attr (controller self) ;;
       us <- deg_to_pwm_us (VFloat p2) ;;
       m <- attr (move_ms self) ;;
       set_pwm_servo c 2 us m)
  | None => ret tt
  end ;;;
  ret Http.no_content.

(** [Handler.do_POST]; [now] is what [time.time()] returns.  The rate limit
    stands before the [try]: an exception there leaves the method. *)
Definition do_POST (self : Handler) (now : Q) (req : Http.request)
  : Handler * eff Http.response :=
  if negb (String.eqb (Http.path req) "/servo") then (self, ret Http.not_found)
  else
    match last_at self with
    | None => (self, raise AttributeError)
    | Some last =>
        match min_interval_s self with
        | None => (self, raise AttributeError)
        | Some min_interval =>
            if Qltb (now - last) min_interval then (self, ret Http.no_content)
            else
              let self := set_last_at self now in
              (self, catch (do_POST_try self req)
                           (fun e => ret (Http.bad_request e)))
        end
    end.

Record args := Args {
  arg_move_ms : Z;
  arg_max_fps : Q
}.

(** The attributes [handler_factory] assigns (lines 195-198). *)
Definition configure (ctrl : TonyPiController) (a : args) (h : Handler) : Handler :=
  Build_Handler (Some ctrl) (Some (arg_move_ms a)) (Some 0%Q)
    (Some (1 / py_max 1 (arg_max_fps a))%Q).

(** Constructing a [Handler]: the constructor of
    [socketserver.BaseRequestHandler] runs [setup()], [handle()] and
    [finish()], so the request is served inside the constructor, on an
    instance none of whose attributes has been assigned. *)
Definition new_handler : Handler := Build_Handler None None None None.

Definition Handler_init (now : Q) (req : Http.request) : Handler * eff Http.response :=
  do_POST new_handler now req.

(** [handler_factory], called by the server once for each connection: the
    served request, and the handler as it is left. *)
Definition handler_factory (ctrl : TonyPiController) (a : args)
           (now : Q) (req : Http.request) : Handler * eff Http.response :=
  let (h, r) := Handler_init now req in
  match outcome r with
  | Ok _ => (configure ctrl a h, r)
  | Raise _ => (h, r)
  end.

Definition do_OPTIONS : Http.response := Http.no_content.

(** [main], up to [httpd.serve_forever()]. *)
Definition main (hiwonder_sdk hiwonder : Receiver.probe) : eff TonyPiController :=
  ctrl <- TonyPiController_init hiwonder_sdk hiwonder ;;
  emit (EvPrint LogBackend) ;;;
  emit (EvPrint LogListening) ;;;
  emit EvServe ;;;
  ret ctrl.

(** The requests of a run, one connection each, with the clock reading of
    each. *)
Definition serve (ctrl : TonyPiController) (a : args)
           (reqs : list (Q * Http.request)) : list (eff Http.response) :=
  map (fun '(now, req) => snd (handler_factory ctrl a now req)) reqs.

End TonyPi.

(** ** servo_client.py *)

Module Client.

Definition degrees_to_pulse (degrees : pyfloat) : result Z :=
  let degrees := py_max (Fin 10) (py_min (Fin 170) degrees) in
  let pulse := flt_mul (flt_div degrees 180) 1000 in
  int_of_float pulse.

Definition pulse_to_degrees (pulse : Z) : pyfloat :=
  let degrees := flt_mul (flt_div (Fin (inject_Z pulse)) 1000) 180 in
  round_1 degrees.

Definition ping_frame : pyval := VDict [(lit "type", VStr (lit "ping"))].

(** [send_ping]; [response] is what [websocket.recv()] followed by
    [json.loads] gives within the five seconds, [TimeoutError] otherwise. *)
Definition send_ping (response : result pyval) : eff unit :=
  emit (EvSend ping_frame) ;;;
  data <- lift response ;;
  t <- lift (py_get data "type" VNone) ;;
  if is_str t "pong" then emit (EvPrint LogPong)
  else emit (EvPrint LogUnexpected).

(** [send_servo_command]; [key] is [str(servo_id)]. *)
Definition send_servo_command (key : pystr) (degrees : pyfloat) : eff unit :=
  pulse <- lift (degrees_to_pulse degrees) ;;
  emit (EvSend (VDict [(lit "type", VStr (lit "servos"));
                       (lit "servos", VDict [(key, VInt pulse)])])) ;;;
  emit (EvPrint LogSent).

End Client.

(** ** The angle codec in the words of the specification (section 4.1) *)

Module Spec.

(** "Clamp degrees to [0,180]". *)
Definition clamp_degrees (d : Q) : Q :=
  if Qle_bool d 0 then 0%Q else if Qle_bool 180 d then 180%Q else d.

(** "Bus pulse: round(deg / 180 * 1000)". *)
Definition degreesToBusPulse (d : Q) : Z :=
  round_half_even (clamp_degrees d / 180 * 1000).


End Spec.

(** The three server-side conversions from degrees to a bus pulse. *)
Definition receiver_conversions : list (pyval -> eff Z) :=
  [Receiver.degrees_to_pulse; ReceiverWs.degrees_to_pulse; TonyPi.deg_to_bus_pos].

(** A finite float as a decoded JSON number. *)
Definition num (d : Q) : pyval := VFloat (Fin d).

(** ** Predicates on traces *)

(** Every event of the computation satisfies [P]. *)
Definition all_events {A} (P : event -> Prop) (m : eff A) : Prop :=
  Forall P (trace m).

(** A driver call whose position and duration are in range: a bus pulse in
    [0,1000], a PWM width in [500,2500], a duration that is not negative. *)
Definition clamped (ev : event) : Prop :=
  match ev with
  | EvDrv m _ v t =>
      (if is_bus_method m then 0 <= v <= 1000 else 500 <= v <= 2500) /\ 0 <= t
  | _ => True
  end.

(** The driver method that [set_bus_servo] and [set_pwm_servo] of the two
    receivers pick with [hasattr], if any. *)
Definition bus_method (c : option sdk) : option drv_method :=
  if hasattr c set_bus_servo_pulse then Some set_bus_servo_pulse
  else if hasattr c setBusServoPulse then Some setBusServoPulse
  else None.

Definition pwm_method (c : option sdk) : option drv_method :=
  if hasattr c set_pwm_servo_pulse then Some set_pwm_servo_pulse
  else if hasattr c setPWMServoPulse then Some setPWMServoPulse
  else None.

(** What is printed after a driver call, when the call raises and the
    exception is caught on the spot. *)
Definition error_line (c : sdk) (m : drv_method) (a v t : Z) : list event :=
  match raises c m a v t with
  | Some e => [EvPrint (if is_bus_method m then LogServoError a e else LogPwmError a e)]
  | None => []
  end.

(** The events of [reset_to_neutral] on a controller [c] whose bus method is
    [bm] and whose PWM method is [pm]: sixteen bus calls and two PWM calls,
    each followed by the line printed when it raises. *)
Definition reset_events (c : sdk) (bm pm : drv_method) (t : Z) : list event :=
  EvPrint LogResetStart
    :: flat_map (fun i => EvDrv bm i 500 t :: error_line c bm i 500 t)
                Receiver.servo_ids
    ++ (EvDrv pm 1 1500 t :: error_line c pm 1 1500 t)
    ++ (EvDrv pm 2 1500 t :: error_line c pm 2 1500 t)
    ++ [EvPrint LogResetDone].

(** The calls of a reset to neutral, in order. *)
Definition neutral_calls (bm pm : drv_method) (t : Z) : list event :=
  map (fun i => EvDrv bm i 500 t) [1; 2; 3; 4; 5; 6; 7; 8; 9; 10; 11; 12; 13; 14; 15; 16]
  ++ [EvDrv pm 1 1500 t; EvDrv pm 2 1500 t].

(** ** Sample drivers and messages *)

Module Sample.

Definition snake_case (m : drv_method) : bool :=
  match m with
  | set_bus_servo_pulse | set_pwm_servo_pulse => true
  | _ => false
  end.

Definition camelCase (m : drv_method) : bool := negb (snake_case m).

(** A [hiwonder.Controller] and a [HiwonderSDK.Board] whose calls succeed. *)
Definition hiwonder_controller : sdk := Sdk snake_case (fun _ _ _ _ => None).
Definition hiwonder_board : sdk := Sdk camelCase (fun _ _ _ _ => None).

(** Drivers on which the bus servo [k] does not answer: a call for it raises
    [OSError]. *)
Definition faulty_controller (k : Z) : sdk :=
  Sdk snake_case
      (fun m a _ _ => if is_bus_method m && (a =? k) then Some OSError else None).
Definition faulty_board (k : Z) : sdk :=
  Sdk camelCase
      (fun m a _ _ => if is_bus_method m && (a =? k) then Some OSError else None).

Definition with_controller (c : sdk) : Receiver.globals :=
  Receiver.Globals true (Some c).

(** [{"kind": k, "degrees": ds}] *)
Definition command (k : string) (ds : list pyval) : pyval :=
  VDict [(lit "kind", VStr (lit k)); (lit "degrees", VList ds)].

Definition dense (ds : list pyval) : pyval := command "humanoid16" ds.

(** All sixteen joints at 90 degrees. *)
Definition neutral : pyval := dense (repeat (VInt 90) 16).

Definition post (msg : pyval) : Http.request :=
  Http.Request "/servo" (Ok 200) (Ok msg).

(** The controller of tonypi_servo_server.py over the hiwonder stack, and the
    default arguments of the command line: 80 ms a move, 10 commands a
    second. *)
Definition tonypi (c : sdk) : TonyPi.TonyPiController :=
  TonyPi.Controller TonyPi.hiwonder_Controller None (Some c).

Definition args : TonyPi.args := TonyPi.Args 80 10.

End Sample.

(** An event that is not a driver call. *)
Definition quiet (ev : event) : Prop := is_drv ev = false.

(** ** Command shapes *)

(** The shape both receivers ask of a dense command before they touch a
    servo: an object whose "kind" is "humanoid16" and whose "degrees" is a
    list of sixteen entries. *)
Definition dense_shape (msg : pyval) : bool :=
  match msg with
  | VDict d =>
      match dict_get d "kind" with
      | Some k => is_str k "humanoid16"
      | None => false
      end
      && match dict_get d "degrees" with
         | Some (VList ds) => Nat.eqb (List.length ds) 16
         | _ => false
         end
  | _ => false
  end.

(** An object tagged as a sparse command. *)
Definition is_sparse (msg : pyval) : bool :=
  match msg with
  | VDict d =>
      match dict_get d "type" with
      | Some t => is_str t "servos"
      | None => false
      end
  | _ => false
  end.

Definition is_dict (msg : pyval) : bool :=
  match msg with VDict _ => true | _ => false end.

(** A request whose body is not a dense command of that shape: the length
    header is not a number, the body is empty, it does not parse, or what it
    parses to has another shape. *)
Definition malformed_request (req : Http.request) : bool :=
  match Http.content_length req with
  | Raise _ => true
  | Ok n =>
      if n =? 0 then true
      else match Http.payload req with
           | Raise _ => true
           | Ok msg => negb (dense_shape msg)
           end
  end.

(** A frame that is neither a sparse command nor a dense command of that
    shape. *)
Definition malformed_frame (message : result pyval) : bool :=
  match message with
  | Raise _ => true
  | Ok msg => negb (is_sparse msg) && negb (dense_shape msg)
  end.

Definition is_send (ev : event) : bool :=
  match ev with EvSend _ => true | _ => false end.

(** An event that is not a frame sent to the peer. *)
Definition unsent (ev : event) : Prop := is_send ev = false.

(** The identifier of a driver call. *)
Definition drv_id (ev : event) : Z :=
  match ev with EvDrv _ a _ _ => a | _ => 0 end.

(** The pulse the HTTP receiver computes for an entry of "degrees". *)
Definition pulse_of (deg : pyval) : Z :=
  match outcome (Receiver.degrees_to_pulse deg) with Ok p => p | Raise _ => 0 end.

(** The bus calls of a dense command that puts every joint at 90 degrees. *)
Definition neutral_bus_calls (m : drv_method) : list event :=
  map (fun i => EvDrv m i 500 80)
      [1; 2; 3; 4; 5; 6; 7; 8; 9; 10; 11; 12; 13; 14; 15; 16].

(** The three server-side conversions from degrees to a PWM pulse width. *)
Definition receiver_pwm_conversions : list (pyval -> eff Z) :=
  [Receiver.degrees_to_pwm_us; ReceiverWs.degrees_to_pwm_us; TonyPi.deg_to_pwm_us].

(** The angle a float that is not finite is converted as: 0 for minus
    infinity, 180 for plus infinity and for NaN. *)
Definition special_angle (f : pyfloat) : Z :=
  match f with NInf => 0 | _ => 180 end.

Definition is_finite (f : pyfloat) : bool :=
  match f with Fin _ => true | _ => false end.

(** ** Dense requests *)

(** The request is a POST to /servo whose body is the object [d], a dense
    command of the expected shape with the entries [ds]. *)
Definition carries_dense (req : Http.request) (d : list (pystr * pyval))
           (ds : list pyval) : Prop :=
  Http.path req = "/servo"%string /\
  (exists n, Http.content_length req = Ok n /\ n <> 0) /\
  Http.payload req = Ok (VDict d) /\
  dense_shape (VDict d) = true /\
  dict_get d "degrees" = Some (VList ds).

(** [msg.get("head")] *)
Definition head_of (d : list (pystr * pyval)) : pyval :=
  match dict_get d "head" with Some v => v | None => VNone end.




(** What the debug output of servo_reciever.py allows in a trace of a request
    handled at [now] with [last] the time of the last output: the time is
    set, and the line printed, only when more than a second has passed, and
    the time is set to [now]. *)
Definition debug_allowed (last now : Q) (ev : event) : Prop :=
  match ev with
  | EvSetLastLog x => x = now /\ (1 < now - last)%Q
  | EvPrint LogReceived => (1 < now - last)%Q
  | _ => True
  end.

(** The loop of [do_POST] of servo_reciever.py over the entries of "degrees"
    (lines 160-163), counting from [s], and its debug output (lines
    174-179). *)
Definition bus_loop (g : Receiver.globals) (s : Z) (ds : list pyval) : eff unit :=
  for_each (enumerate s ds)
    (fun '(i, deg) =>
       let servo_id := i + 1 in
       pulse <- Receiver.degrees_to_pulse deg ;;
       Receiver.set_bus_servo g servo_id pulse 80).

Definition debug_output (last now : Q) (ds : list pyval) : eff unit :=
  if negb (Qle_bool (now - last) 1) then
    emit (EvSetLastLog now) ;;;
    lift (Receiver.map_result py_round (firstn 4 ds)) ;;;
    emit (EvPrint LogReceived)
  else ret tt.

(** The call for an entry and the line printed when it raises. *)
Definition bus_events (c : sdk) (m : drv_method) (x : Z * pyval) : list event :=
  EvDrv m (fst x + 1) (pulse_of (snd x)) 80
    :: error_line c m (fst x + 1) (pulse_of (snd x)) 80.

(** A value that [float] accepts. *)
Definition float_ok (v : pyval) : Prop := exists f, py_float v = Ok f.

(** An answer with the CORS headers that is one of the three the servers
    give. *)
Definition well_formed_response (r : Http.response) : Prop :=
  incl Http.cors (Http.headers r) /\
  (r = Http.no_content \/ r = Http.not_found \/ exists e, r = Http.bad_request e).

(** ** Sparse frames and head commands *)

(** [int(sid)] of a key and [int(pulse)] of a value of "servos", where they
    do not raise. *)
Definition key_int (sid : pystr) : Z :=
  match int_of sid with Some z => z | None => 0 end.

Definition val_int (v : pyval) : Z :=
  match py_int v with Ok z => z | Raise _ => 0 end.

(** The call servo_receiver_ws.py makes for an entry of "servos". *)
Definition sparse_call (m : drv_method) (x : pystr * pyval) : event :=
  EvDrv m (key_int (fst x)) (clamp (val_int (snd x)) 0 1000) 80.

(** An entry of "servos" on which neither [int] raises. *)
Definition sparse_entry_ok (x : pystr * pyval) : Prop :=
  int_of (fst x) <> None /\ exists z, py_int (snd x) = Ok z.

(** The frame [send_servo_command] sends for the pulse [p]. *)
Definition servo_frame (key : pystr) (p : Z) : pyval :=
  VDict [(lit "type", VStr (lit "servos"));
         (lit "servos", VDict [(key, VInt p)])].



(** No call of the controller of [g], if it has one, raises. *)
Definition never_raises (g : Receiver.globals) : Prop :=
  forall c, Receiver.controller g = Some c ->
            forall m a v t, raises c m a v t = None.

(** * Properties *)

(** ** Rounding *)

Section Rounding.
Local Open Scope Q_scope.

Lemma Qfloor_frac (q : Q) : 0 <= q - inject_Z (Qfloor q) < 1.
Proof.
  pose proof (Qfloor_le q) as Hlo. pose proof (Qlt_floor q) as Hhi.
  rewrite inject_Z_plus in Hhi. change (inject_Z 1) with 1 in Hhi. lra.
Qed.

Lemma round_half_even_floor (q : Q) :
  (Qfloor q <= round_half_even q <= Qfloor q + 1)%Z.
Proof.
  unfold round_half_even.
  destruct (q - inject_Z (Qfloor q) ?= 1 # 2); try lia.
  destruct (Z.even (Qfloor q)); lia.
Qed.

Lemma round_half_even_le (x y : Q) :
  x <= y -> (round_half_even x <= round_half_even y)%Z.
Proof.
  intro Hxy.
  pose proof (Qfloor_resp_le _ _ Hxy) as Hf.
  destruct (Z.eq_dec (Qfloor x) (Qfloor y)) as [E|N].
  - unfold round_half_even. rewrite <- E.
    destruct (Qcompare_spec (x - inject_Z (Qfloor x)) (1 # 2)) as [Ex|Lx|Gx];
    destruct (Qcompare_spec (y - inject_Z (Qfloor x)) (1 # 2)) as [Ey|Ly|Gy];
    try destruct (Z.even (Qfloor x)); try lia; lra.
  - pose proof (round_half_even_floor x). pose proof (round_half_even_floor y). lia.
Qed.

Lemma round_half_even_comp (x y : Q) :
  x == y -> round_half_even x = round_half_even y.
Proof.
  intro E. apply Z.le_antisymm; apply round_half_even_le; lra.
Qed.

Lemma round_half_even_Z (z : Z) : round_half_even (inject_Z z) = z.
Proof.
  unfold round_half_even. rewrite Qfloor_Z.
  destruct (Qcompare_spec (inject_Z z - inject_Z z) (1 # 2)); auto; lra.
Qed.

Lemma Qtrunc_floor (q : Q) : 0 <= q -> Qtrunc q = Qfloor q.
Proof.
  destruct q as [n d]. unfold Qle, Qtrunc, Qfloor. simpl. intro H.
  apply Z.quot_div_nonneg; lia.
Qed.

Lemma Qltb_spec (x y : Q) : reflect (x < y) (Qltb x y).
Proof.
  unfold Qltb. destruct (x ?= y) eqn:E; constructor.
  - apply Qeq_alt in E. lra.
  - now apply Qlt_alt.
  - apply Qgt_alt in E. lra.
Qed.

Lemma Qle_bool_spec (x y : Q) : reflect (x <= y) (Qle_bool x y).
Proof.
  destruct (Qle_bool x y) eqn:E; constructor.
  - now apply Qle_bool_iff.
  - intro H. apply Qle_bool_iff in H. congruence.
Qed.

End Rounding.

(** ** The clamp *)

Section Clamp.
Local Open Scope Q_scope.

Ltac unfold_clamp :=
  unfold clamp, py_min, py_max, py_ltb, PyOrd_float; cbn [flt_ltb].

Lemma clamp_Fin (d lo hi : Q) :
  lo <= hi ->
  exists c, clamp (Fin d) (Fin lo) (Fin hi) = Fin c /\ lo <= c <= hi /\
            (lo <= d <= hi -> c == d) /\ (d <= lo -> c == lo) /\ (hi <= d -> c == hi).
Proof.
  intro H. unfold_clamp.
  destruct (Qltb_spec d hi); cbn [flt_ltb].
  - destruct (Qltb_spec lo d); eexists; (split; [reflexivity|]);
      repeat split; intros; lra.
  - destruct (Qltb_spec lo hi); eexists; (split; [reflexivity|]);
      repeat split; intros; lra.
Qed.

(** Whatever the float, NaN and the infinities included, the clamp returns a
    finite value between the bounds. *)
Lemma clamp_float (f : pyfloat) (lo hi : Q) :
  lo <= hi -> exists c, clamp f (Fin lo) (Fin hi) = Fin c /\ lo <= c <= hi.
Proof.
  intro H. destruct f as [d| | |].
  - destruct (clamp_Fin d lo hi H) as (c & E & B & _). eauto.
  - unfold_clamp.
    destruct (Qltb_spec lo hi); eexists; (split; [reflexivity|]); lra.
  - unfold_clamp. eexists; (split; [reflexivity|]); lra.
  - unfold_clamp.
    destruct (Qltb_spec lo hi); eexists; (split; [reflexivity|]); lra.
Qed.

Lemma clamp_degrees_spec (d : Q) :
  exists c, clamp (Fin d) (Fin 0) (Fin 180) = Fin c /\ c == Spec.clamp_degrees d.
Proof.
  destruct (clamp_Fin d 0 180) as (c & E & B & Hin & Hlo & Hhi); [lra|].
  exists c. split; [exact E|]. unfold Spec.clamp_degrees.
  destruct (Qle_bool_spec d 0); [auto|].
  destruct (Qle_bool_spec 180 d); [auto|].
  apply Hin. lra.
Qed.

Lemma clamp_Z (v lo hi : Z) : (lo <= hi -> lo <= clamp v lo hi <= hi)%Z.
Proof.
  intro H. unfold clamp, py_min, py_max, py_ltb, PyOrd_Z.
  destruct (Z.ltb_spec v hi).
  - destruct (Z.ltb_spec lo v); lia.
  - destruct (Z.ltb_spec lo hi); lia.
Qed.

Lemma py_max_0 (t : Z) : (0 <= py_max 0 t)%Z.
Proof.
  unfold py_max, py_ltb, PyOrd_Z. destruct (Z.ltb_spec 0 t); lia.
Qed.

End Clamp.

(** ** The angle codec *)

Section Codec.
Local Open Scope Q_scope.

Lemma bus_scale (c : Q) : c / 180 * 1000 == c * (50 # 9).
Proof. field. Qed.







(** The three server-side conversions have one body. *)
Lemma receiver_conversion_body (conv : pyval -> eff Z) :
  In conv receiver_conversions ->
  forall v, conv v =
    (d <- lift (py_float v) ;;
     lift (round_float (flt_mul (flt_div (clamp d (Fin 0) (Fin 180)) 180) 1000))).
Proof.
  intros H v. repeat (destruct H as [<- | H]; [reflexivity|]). destruct H.
Qed.

Lemma receiver_conversion_float (conv : pyval -> eff Z) (v : pyval) (f : pyfloat) :
  In conv receiver_conversions -> py_float v = Ok f ->
  exists c, clamp f (Fin 0) (Fin 180) = Fin c /\ 0 <= c <= 180 /\
            conv v = ret (round_half_even (c / 180 * 1000)).
Proof.
  intros H E. rewrite (receiver_conversion_body conv H). rewrite E.
  destruct (clamp_float f 0 180) as (c & Ec & B); [lra|].
  exists c. split; [exact Ec|]. split; [exact B|].
  cbn. rewrite Ec. reflexivity.
Qed.

Lemma receiver_conversion_spec (conv : pyval -> eff Z) (v : pyval) (d : Q) :
  In conv receiver_conversions -> py_float v = Ok (Fin d) ->
  conv v = ret (Spec.degreesToBusPulse d).
Proof.
  intros H E.
  destruct (receiver_conversion_float conv v _ H E) as (c & Ec & _ & ->).
  destruct (clamp_degrees_spec d) as (c' & Ec' & Eq).
  rewrite Ec in Ec'. injection Ec' as <-.
  unfold Spec.degreesToBusPulse, ret. do 2 f_equal.
  apply round_half_even_comp. rewrite !bus_scale. rewrite Eq. reflexivity.
Qed.

(** Every value that [float] accepts is converted, to a pulse in range. *)
Lemma receiver_conversion_total (conv : pyval -> eff Z) (v : pyval) (f : pyfloat) :
  In conv receiver_conversions -> py_float v = Ok f ->
  exists p, conv v = ret p /\ (0 <= p <= 1000)%Z.
Proof.
  intros H E.
  destruct (receiver_conversion_float conv v _ H E) as (c & _ & B & ->).
  eexists. split; [reflexivity|]. split.
  - rewrite <- (round_half_even_Z 0). apply round_half_even_le.
    rewrite bus_scale. change (inject_Z 0) with 0. lra.
  - rewrite <- (round_half_even_Z 1000). apply round_half_even_le.
    rewrite bus_scale. change (inject_Z 1000) with 1000. lra.
Qed.

(** The client: clamp to [10,170], then truncate. *)
Lemma client_pulse (f : pyfloat) :
  exists c, clamp f (Fin 10) (Fin 170) = Fin c /\ 10 <= c <= 170 /\
            Client.degrees_to_pulse f = Ok (Qfloor (c * (50 # 9))).
Proof.
  destruct (clamp_float f 10 170) as (c & Ec & B); [lra|].
  exists c. split; [exact Ec|]. split; [exact B|].
  unfold Client.degrees_to_pulse.
  change (py_max (Fin 10) (py_min (Fin 170) f)) with (clamp f (Fin 10) (Fin 170)).
  rewrite Ec. cbn [flt_div flt_mul int_of_float]. f_equal.
  rewrite Qtrunc_floor.
  - apply Qfloor_comp. apply bus_scale.
  - rewrite bus_scale. lra.
Qed.

Lemma client_pulse_range (f : pyfloat) :
  exists p, Client.degrees_to_pulse f = Ok p /\ (55 <= p <= 944)%Z.
Proof.
  destruct (client_pulse f) as (c & _ & B & ->). eexists. split; [reflexivity|].
  split.
  - change 55%Z with (Qfloor (500 # 9)). apply Qfloor_resp_le. lra.
  - change 944%Z with (Qfloor (8500 # 9)). apply Qfloor_resp_le. lra.
Qed.



Lemma client_pulse_inside (d : Q) :
  10 <= d <= 170 -> Client.degrees_to_pulse (Fin d) = Ok (Qtrunc (d / 180 * 1000)).
Proof.
  intro B. destruct (client_pulse (Fin d)) as (c & Ec & Bc & ->).
  destruct (clamp_Fin d 10 170) as (c' & Ec' & _ & I & _); [lra|].
  rewrite Ec in Ec'. injection Ec' as <-. f_equal.
  rewrite Qtrunc_floor by (rewrite bus_scale; lra).
  apply Qfloor_comp. rewrite bus_scale, I by lra. reflexivity.
Qed.


End Codec.

Section BusPulse.
Local Open Scope Q_scope.




End BusPulse.

(** ** Traces *)

Section Traces.
Context {A B : Type}.

Lemma trace_bind (m : eff A) (f : A -> eff B) :
  trace (bind m f) =
  trace m ++ match outcome m with Ok a => trace (f a) | Raise _ => [] end.
Proof.
  destruct m as [t [a|e]]; cbn.
  - destruct (f a); reflexivity.
  - now rewrite app_nil_r.
Qed.

Lemma trace_catch (m : eff A) (h : exn -> eff A) :
  trace (catch m h) =
  trace m ++ match outcome m with Ok _ => [] | Raise e => trace (h e) end.
Proof.
  destruct m as [t [a|e]]; cbn.
  - now rewrite app_nil_r.
  - destruct (h e); reflexivity.
Qed.

Variable P : event -> Prop.

Lemma all_bind (m : eff A) (f : A -> eff B) :
  all_events P m -> (forall a, all_events P (f a)) -> all_events P (bind m f).
Proof.
  unfold all_events. intros Hm Hf. rewrite trace_bind. apply Forall_app.
  split; [exact Hm|]. destruct (outcome m); [apply Hf | constructor].
Qed.

Lemma all_catch (m : eff A) (h : exn -> eff A) :
  all_events P m -> (forall e, all_events P (h e)) -> all_events P (catch m h).
Proof.
  unfold all_events. intros Hm Hh. rewrite trace_catch. apply Forall_app.
  split; [exact Hm|]. destruct (outcome m); [constructor | apply Hh].
Qed.

Lemma all_ret (a : A) : all_events P (ret a).
Proof. constructor. Qed.

Lemma all_raise (e : exn) : all_events P (@raise A e).
Proof. constructor. Qed.

Lemma all_lift (r : result A) : all_events P (lift r).
Proof. constructor. Qed.

End Traces.

Lemma all_emit (P : event -> Prop) (ev : event) : P ev -> all_events P (emit ev).
Proof. intro H. repeat constructor. exact H. Qed.

Lemma all_for_each {A} (P : event -> Prop) (xs : list A) (body : A -> eff unit) :
  (forall x, all_events P (body x)) -> all_events P (for_each xs body).
Proof.
  intro H. induction xs as [|x xs IH]; cbn [for_each].
  - constructor.
  - apply all_bind; auto.
Qed.

(** One step through the structure of a computation. *)
Ltac eff_step :=
  first
    [ apply all_ret | apply all_raise | apply all_lift
    | apply all_bind; [|intros]
    | apply all_catch; [|intros]
    | apply all_for_each; intros
    | match goal with
      | |- all_events _ (match ?x with _ => _ end) => destruct x
      end ].

(** ** Values handed to the driver *)

Section Clamped.

Lemma call_clamped (c : option sdk) (m : drv_method) (a v t : Z) :
  clamped (EvDrv m a v t) -> all_events clamped (call c m a v t).
Proof.
  intro H. unfold call. destruct c as [o|]; [|apply all_raise].
  destruct (has o m); [|apply all_raise].
  unfold drv_call. apply all_bind; [now apply all_emit|].
  intros _. destruct (raises o m a v t); [apply all_raise | apply all_ret].
Qed.

Lemma bus_clamped (m : drv_method) (a v t : Z) :
  is_bus_method m = true -> clamped (EvDrv m a (clamp v 0 1000) (py_max 0 t)).
Proof.
  intro H. cbn. rewrite H. split; [apply clamp_Z; lia | apply py_max_0].
Qed.

Lemma pwm_clamped (m : drv_method) (a v t : Z) :
  is_bus_method m = false -> clamped (EvDrv m a (clamp v 500 2500) (py_max 0 t)).
Proof.
  intro H. cbn. rewrite H. split; [apply clamp_Z; lia | apply py_max_0].
Qed.

Ltac leaf :=
  first [ apply call_clamped, bus_clamped; reflexivity
        | apply call_clamped, pwm_clamped; reflexivity
        | apply all_emit; exact I ].

Lemma Receiver_set_bus_servo_clamped g a v t :
  all_events clamped (Receiver.set_bus_servo g a v t).
Proof. unfold Receiver.set_bus_servo. repeat first [ leaf | eff_step ]. Qed.

Lemma Receiver_set_pwm_servo_clamped g a v t :
  all_events clamped (Receiver.set_pwm_servo g a v t).
Proof. unfold Receiver.set_pwm_servo. repeat first [ leaf | eff_step ]. Qed.

Lemma Receiver_reset_clamped g t :
  all_events clamped (Receiver.reset_to_neutral g t).
Proof.
  unfold Receiver.reset_to_neutral.
  repeat first [ apply Receiver_set_bus_servo_clamped
          | apply Receiver_set_pwm_servo_clamped | leaf
          | eff_step ].
Qed.

Lemma Receiver_do_POST_try_clamped g last now req :
  all_events clamped (Receiver.do_POST_try g last now req).
Proof.
  unfold Receiver.do_POST_try, Receiver.apply_head.
  repeat first [ apply Receiver_set_bus_servo_clamped
          | apply Receiver_set_pwm_servo_clamped | leaf
          | eff_step ].
Qed.

Lemma Receiver_do_POST_clamped g last now req :
  Forall clamped (fst (Receiver.do_POST g last now req)).
Proof.
  unfold Receiver.do_POST.
  destruct (negb (Http.path req =? "/servo")%string); [constructor|].
  pose proof (Receiver_do_POST_try_clamped g last now req) as H.
  destruct (Receiver.do_POST_try g last now req) as [t [u|e]]; cbn in *.
  - exact H.
  - apply Forall_app. split; [exact H | repeat constructor].
Qed.

Lemma Receiver_main_clamped g no_reset :
  all_events clamped (Receiver.main g no_reset).
Proof.
  unfold Receiver.main.
  repeat first [ apply Receiver_reset_clamped | leaf
          | eff_step ].
Qed.

Lemma Receiver_shutdown_clamped g :
  all_events clamped (Receiver.shutdown_handler g).
Proof.
  unfold Receiver.shutdown_handler.
  repeat first [ apply Receiver_reset_clamped | leaf
          | eff_step ].
Qed.

Lemma ReceiverWs_set_bus_servo_clamped g a v t :
  all_events clamped (ReceiverWs.set_bus_servo g a v t).
Proof. unfold ReceiverWs.set_bus_servo. repeat first [ leaf | eff_step ]. Qed.

Lemma ReceiverWs_set_pwm_servo_clamped g a v t :
  all_events clamped (ReceiverWs.set_pwm_servo g a v t).
Proof. unfold ReceiverWs.set_pwm_servo. repeat first [ leaf | eff_step ]. Qed.

Lemma ReceiverWs_on_message_clamped g message :
  all_events clamped (ReceiverWs.on_message g message).
Proof.
  unfold ReceiverWs.on_message, ReceiverWs.sparse_head, ReceiverWs.dense_head.
  repeat first [ apply ReceiverWs_set_bus_servo_clamped
          | apply ReceiverWs_set_pwm_servo_clamped | leaf
          | eff_step ].
Qed.

Lemma ReceiverWs_handler_clamped g frames :
  Forall clamped (ReceiverWs.handler g frames).
Proof.
  unfold ReceiverWs.handler. change (Forall clamped (trace ?m)) with (all_events clamped m).
  repeat first [ apply ReceiverWs_on_message_clamped | leaf
          | eff_step ].
Qed.

Lemma TonyPi_set_bus_servo_clamped c a v t :
  all_events clamped (TonyPi.set_bus_servo c a v t).
Proof. unfold TonyPi.set_bus_servo. repeat first [ leaf | eff_step ]. Qed.

Lemma TonyPi_set_pwm_servo_clamped c a v t :
  all_events clamped (TonyPi.set_pwm_servo c a v t).
Proof. unfold TonyPi.set_pwm_servo. repeat first [ leaf | eff_step ]. Qed.

Lemma TonyPi_do_POST_try_clamped self req :
  all_events clamped (TonyPi.do_POST_try self req).
Proof.
  unfold TonyPi.do_POST_try, TonyPi.attr.
  repeat first [ apply TonyPi_set_bus_servo_clamped
          | apply TonyPi_set_pwm_servo_clamped | leaf
          | eff_step ].
Qed.

Lemma TonyPi_do_POST_clamped self now req :
  all_events clamped (snd (TonyPi.do_POST self now req)).
Proof.
  unfold TonyPi.do_POST.
  repeat first [ apply TonyPi_do_POST_try_clamped
               | eff_step
               | match goal with
                 | |- all_events _ (snd (if ?b then _ else _)) => destruct b
                 | |- all_events _ (snd (match ?x with _ => _ end)) => destruct x
                 end
               | progress cbn [snd] ].
Qed.

End Clamped.

(** C9.  Every value handed to the servo driver has been clamped by the
    backend function that makes the call, in the three servers and whatever
    the command: a bus pulse lies in [0,1000], a PWM width in [500,2500] and
    a duration is not negative.  This covers the pulses of a sparse frame,
    which reach [set_bus_servo] without a conversion from degrees. *)
Theorem driver_values_clamped :
  (forall g last now req, Forall clamped (fst (Receiver.do_POST g last now req))) /\
  (forall g no_reset, Forall clamped (trace (Receiver.main g no_reset))) /\
  (forall g, Forall clamped (trace (Receiver.shutdown_handler g))) /\
  (forall g frames, Forall clamped (ReceiverWs.handler g frames)) /\
  (forall self now req, Forall clamped (trace (snd (TonyPi.do_POST self now req)))) /\
  (forall g a v t,
     Forall clamped (trace (Receiver.set_bus_servo g a v t)) /\
     Forall clamped (trace (Receiver.set_pwm_servo g a v t)) /\
     Forall clamped (trace (ReceiverWs.set_bus_servo g a v t)) /\
     Forall clamped (trace (ReceiverWs.set_pwm_servo g a v t))) /\
  (forall c a v t,
     Forall clamped (trace (TonyPi.set_bus_servo c a v t)) /\
     Forall clamped (trace (TonyPi.set_pwm_servo c a v t))).
Proof.
  split; [exact Receiver_do_POST_clamped|].
  split; [exact Receiver_main_clamped|].
  split; [exact Receiver_shutdown_clamped|].
  split; [exact ReceiverWs_handler_clamped|].
  split; [exact TonyPi_do_POST_clamped|].
  split; intros; repeat split.
  - apply Receiver_set_bus_servo_clamped.
  - apply Receiver_set_pwm_servo_clamped.
  - apply ReceiverWs_set_bus_servo_clamped.
  - apply ReceiverWs_set_pwm_servo_clamped.
  - apply TonyPi_set_bus_servo_clamped.
  - apply TonyPi_set_pwm_servo_clamped.
Qed.

(** ** Batches of driver calls *)

Section Batches.

Lemma for_each_traces {A} (xs : list A) (body : A -> eff unit)
      (tr : A -> list event) :
  (forall x, In x xs -> body x = (tr x, Ok tt)) ->
  for_each xs body = (flat_map tr xs, Ok tt).
Proof.
  induction xs as [|x xs IH]; intro H; cbn [for_each flat_map].
  - reflexivity.
  - rewrite (H x (or_introl eq_refl)), IH by (intros; apply H; now right).
    reflexivity.
Qed.

Lemma drv_calls_app (t1 t2 : list event) :
  drv_calls (t1 ++ t2) = drv_calls t1 ++ drv_calls t2.
Proof. apply filter_app. Qed.

Lemma drv_calls_flat_map {A} (tr : A -> list event) (f : A -> event) (xs : list A) :
  (forall x, In x xs -> drv_calls (tr x) = [f x]) ->
  drv_calls (flat_map tr xs) = map f xs.
Proof.
  induction xs as [|x xs IH]; intro H; cbn [flat_map map].
  - reflexivity.
  - rewrite drv_calls_app, (H x (or_introl eq_refl)), IH
      by (intros; apply H; now right).
    reflexivity.
Qed.

Lemma drv_calls_error_line c m a v t : drv_calls (error_line c m a v t) = [].
Proof. unfold error_line. destruct (raises c m a v t); reflexivity. Qed.

Lemma bus_method_has (c : option sdk) (m : drv_method) :
  bus_method c = Some m ->
  exists o, c = Some o /\ has o m = true /\ is_bus_method m = true.
Proof.
  unfold bus_method, hasattr. destruct c as [o|]; [|discriminate].
  destruct (has o set_bus_servo_pulse) eqn:E1.
  - intros [= <-]. eauto.
  - destruct (has o setBusServoPulse) eqn:E2; [|discriminate].
    intros [= <-]. eauto.
Qed.

Lemma pwm_method_has (c : option sdk) (m : drv_method) :
  pwm_method c = Some m ->
  exists o, c = Some o /\ has o m = true /\ is_bus_method m = false.
Proof.
  unfold pwm_method, hasattr. destruct c as [o|]; [|discriminate].
  destruct (has o set_pwm_servo_pulse) eqn:E1.
  - intros [= <-]. eauto.
  - destruct (has o setPWMServoPulse) eqn:E2; [|discriminate].
    intros [= <-]. eauto.
Qed.

(** In servo_reciever.py a driver call that raises is caught on the spot:
    [set_bus_servo] makes the call, prints the error if there is one, and
    returns. *)
Lemma Receiver_set_bus_servo_trace g c m a v t :
  Receiver.ROBOT_AVAILABLE g = true -> Receiver.controller g = Some c ->
  bus_method (Some c) = Some m ->
  Receiver.set_bus_servo g a v t =
  (EvDrv m a (clamp v 0 1000) (py_max 0 t)
     :: error_line c m a (clamp v 0 1000) (py_max 0 t), Ok tt).
Proof.
  intros Hav Hc Hm. destruct (bus_method_has _ _ Hm) as (o & [= <-] & Hhas & Hbus).
  unfold Receiver.set_bus_servo, error_line. rewrite Hav, Hc. cbn [negb].
  unfold bus_method in Hm.
  destruct (hasattr (Some c) set_bus_servo_pulse) eqn:E1.
  - injection Hm as <-. unfold call, drv_call. rewrite Hhas. cbn.
    destruct (raises c _ _ _ _); reflexivity.
  - destruct (hasattr (Some c) setBusServoPulse) eqn:E2; [|discriminate].
    injection Hm as <-. unfold call, drv_call. rewrite Hhas. cbn.
    destruct (raises c _ _ _ _); reflexivity.
Qed.

Lemma Receiver_set_pwm_servo_trace g c m a v t :
  Receiver.ROBOT_AVAILABLE g = true -> Receiver.controller g = Some c ->
  pwm_method (Some c) = Some m ->
  Receiver.set_pwm_servo g a v t =
  (EvDrv m a (clamp v 500 2500) (py_max 0 t)
     :: error_line c m a (clamp v 500 2500) (py_max 0 t), Ok tt).
Proof.
  intros Hav Hc Hm. destruct (pwm_method_has _ _ Hm) as (o & [= <-] & Hhas & Hbus).
  unfold Receiver.set_pwm_servo, error_line. rewrite Hav, Hc. cbn [negb].
  unfold pwm_method in Hm.
  destruct (hasattr (Some c) set_pwm_servo_pulse) eqn:E1.
  - injection Hm as <-. unfold call, drv_call. rewrite Hhas. cbn.
    destruct (raises c _ _ _ _); reflexivity.
  - destruct (hasattr (Some c) setPWMServoPulse) eqn:E2; [|discriminate].
    injection Hm as <-. unfold call, drv_call. rewrite Hhas. cbn.
    destruct (raises c _ _ _ _); reflexivity.
Qed.

End Batches.

(** ** Reset to neutral at start *)

Section Startup.

Lemma Receiver_reset_trace g c bm pm t :
  Receiver.ROBOT_AVAILABLE g = true -> Receiver.controller g = Some c ->
  bus_method (Some c) = Some bm -> pwm_method (Some c) = Some pm ->
  Receiver.reset_to_neutral g t = (reset_events c bm pm (py_max 0 t), Ok tt).
Proof.
  intros Hav Hc Hb Hp. unfold Receiver.reset_to_neutral.
  rewrite (for_each_traces _ _
             (fun i => EvDrv bm i 500 (py_max 0 t)
                         :: error_line c bm i 500 (py_max 0 t))).
  - rewrite !(Receiver_set_pwm_servo_trace g c pm) by assumption.
    cbn. reflexivity.
  - intros i _. now rewrite (Receiver_set_bus_servo_trace g c bm).
Qed.

Lemma drv_calls_reset c bm pm t :
  drv_calls (reset_events c bm pm t) = neutral_calls bm pm t.
Proof.
  unfold reset_events. cbn [drv_calls filter is_drv].
  change (filter is_drv ?l) with (drv_calls l).
  rewrite !drv_calls_app.
  rewrite (drv_calls_flat_map _ (fun i => EvDrv bm i 500 t)).
  - cbn [drv_calls filter is_drv]. change (filter is_drv ?l) with (drv_calls l).
    rewrite !drv_calls_error_line. reflexivity.
  - intros i _. cbn [drv_calls filter is_drv].
    change (filter is_drv ?l) with (drv_calls l).
    now rewrite drv_calls_error_line.
Qed.

Lemma error_line_no_serve c m a v t : ~ In EvServe (error_line c m a v t).
Proof.
  unfold error_line. destruct (raises c m a v t); cbn; [|tauto].
  intros [H|[]]. discriminate.
Qed.

Lemma reset_no_serve c bm pm t : ~ In EvServe (reset_events c bm pm t).
Proof.
  unfold reset_events. intros [H|H]; [discriminate|].
  rewrite !in_app_iff in H. destruct H as [H|[H|[H|H]]].
  - apply in_flat_map in H. destruct H as (i & _ & [H|H]); [discriminate|].
    now apply error_line_no_serve in H.
  - destruct H as [H|H]; [discriminate | now apply error_line_no_serve in H].
  - destruct H as [H|H]; [discriminate | now apply error_line_no_serve in H].
  - destruct H as [H|[]]. discriminate.
Qed.

(** C5.  servo_reciever.py, started with a backend present (the probe set
    [ROBOT_AVAILABLE] and the controller has a bus method and a PWM method)
    and without [--no-reset]: before the server takes its first request,
    [main] makes exactly the sixteen bus calls with pulse 500 for the
    identifiers 1 to 16 and the two PWM calls with 1500 microseconds for the
    channels 1 and 2, all with a duration of 1000 ms, then sleeps, and only
    then serves. *)
Theorem startup_reset (g : Receiver.globals) (bm pm : drv_method) :
  Receiver.ROBOT_AVAILABLE g = true ->
  bus_method (Receiver.controller g) = Some bm ->
  pwm_method (Receiver.controller g) = Some pm ->
  exists startup,
    Receiver.main g false
    = (startup ++ [EvSleep; EvPrint LogListening; EvServe], Ok tt) /\
    drv_calls startup = neutral_calls bm pm 1000 /\
    List.length (drv_calls startup) = 18%nat /\
    ~ In EvServe startup.
Proof.
  intros Hav Hb Hp.
  destruct (bus_method_has _ _ Hb) as (c & Hc & _). rewrite Hc in Hb, Hp.
  exists (EvPrint LogBanner :: reset_events c bm pm 1000).
  split; [|split; [|split]].
  - unfold Receiver.main. rewrite Hav.
    rewrite (Receiver_reset_trace g c bm pm) by assumption.
    cbn. now rewrite <- app_assoc.
  - cbn [drv_calls filter is_drv]. apply drv_calls_reset.
  - cbn [drv_calls filter is_drv]. change (filter is_drv ?l) with (drv_calls l).
    rewrite drv_calls_reset. reflexivity.
  - intros [H|H]; [discriminate | now apply reset_no_serve in H].
Qed.

End Startup.

Lemma startup_reset_witness :
  exists startup,
    Receiver.main (Sample.with_controller Sample.hiwonder_board) false
    = (startup ++ [EvSleep; EvPrint LogListening; EvServe], Ok tt) /\
    drv_calls startup = neutral_calls setBusServoPulse setPWMServoPulse 1000 /\
    List.length (drv_calls startup) = 18%nat /\
    ~ In EvServe startup.
Proof.
  apply (startup_reset (Sample.with_controller Sample.hiwonder_board));
    reflexivity.
Defined.

(** ** Without a driver *)

Section Simulated.

Lemma quiet_drv_calls (t : list event) : Forall quiet t -> drv_calls t = [].
Proof.
  induction 1 as [|ev t H _ IH]; [reflexivity|].
  cbn. unfold quiet in H. now rewrite H.
Qed.

Ltac quiet_leaf := first [ apply all_emit; reflexivity ].

Lemma Receiver_do_POST_try_simulated c last now req :
  all_events quiet (Receiver.do_POST_try (Receiver.Globals false c) last now req).
Proof.
  unfold Receiver.do_POST_try, Receiver.apply_head.
  repeat first [ quiet_leaf | eff_step ].
Qed.

Lemma Receiver_do_POST_simulated c last now req :
  drv_calls (fst (Receiver.do_POST (Receiver.Globals false c) last now req)) = [].
Proof.
  apply quiet_drv_calls. unfold Receiver.do_POST.
  destruct (negb (Http.path req =? "/servo")%string); [constructor|].
  pose proof (Receiver_do_POST_try_simulated c last now req) as H.
  destruct (Receiver.do_POST_try _ last now req) as [t [u|e]]; cbn in *.
  - exact H.
  - apply Forall_app. split; [exact H | repeat constructor].
Qed.

Lemma ReceiverWs_handler_simulated c frames :
  drv_calls (ReceiverWs.handler (Receiver.Globals false c) frames) = [].
Proof.
  apply quiet_drv_calls. unfold ReceiverWs.handler.
  change (Forall quiet (trace ?m)) with (all_events quiet m).
  unfold ReceiverWs.on_message, ReceiverWs.sparse_head, ReceiverWs.dense_head.
  repeat first [ quiet_leaf | eff_step ].
Qed.

(** C4, as amended.  In servo_reciever.py and servo_receiver_ws.py, when
    neither vendor module can be imported, the probe leaves
    [ROBOT_AVAILABLE = False]: the process goes on to serve, every
    [set_bus_servo] and [set_pwm_servo] returns without a driver call, and no
    request or frame leads to one.  tonypi_servo_server.py has no simulated
    mode: when both attempts of the constructor of its controller fail, the
    constructor raises [RuntimeError] and the process ends before it
    listens. *)
Theorem no_sdk_behaviour :
  Receiver.module_init (Receiver.Fails ImportError) (Receiver.Fails ImportError)
  = ([EvPrint LogNoSdk], Ok (Receiver.Globals false None)) /\
  (forall no_reset,
     Receiver.start (Receiver.Fails ImportError) (Receiver.Fails ImportError) no_reset
     = ([EvPrint LogNoSdk; EvPrint LogBanner; EvPrint LogListening; EvServe], Ok tt)) /\
  ReceiverWs.start (Receiver.Fails ImportError) (Receiver.Fails ImportError) true
  = ([EvPrint LogNoSdk; EvPrint LogListening; EvServe], Ok tt) /\
  (forall c a v t,
     Receiver.set_bus_servo (Receiver.Globals false c) a v t = ret tt /\
     Receiver.set_pwm_servo (Receiver.Globals false c) a v t = ret tt /\
     ReceiverWs.set_bus_servo (Receiver.Globals false c) a v t = ret tt /\
     ReceiverWs.set_pwm_servo (Receiver.Globals false c) a v t = ret tt) /\
  (forall c last now req,
     drv_calls (fst (Receiver.do_POST (Receiver.Globals false c) last now req)) = []) /\
  (forall c frames,
     drv_calls (ReceiverWs.handler (Receiver.Globals false c) frames) = []) /\
  (forall e1 e2,
     TonyPi.main (Receiver.Fails e1) (Receiver.Fails e2) = ([], Raise RuntimeError)).
Proof.
  split; [reflexivity|].
  split; [intros []; reflexivity|].
  split; [reflexivity|].
  split; [intros; repeat split|].
  split; [exact Receiver_do_POST_simulated|].
  split; [exact ReceiverWs_handler_simulated|].
  reflexivity.
Qed.

(** The claim C4 fails as stated on tonypi_servo_server.py: with no SDK to
    import, the process ends with [RuntimeError] and never listens. *)
Lemma tonypi_without_sdk_counterexample :
  TonyPi.main (Receiver.Fails ImportError) (Receiver.Fails ImportError)
  = ([], Raise RuntimeError).
Proof. reflexivity. Qed.

End Simulated.

(** ** Rejected commands *)

Section Rejected.

Lemma Receiver_do_POST_try_malformed g last now req :
  malformed_request req = true ->
  exists t e, Receiver.do_POST_try g last now req = (t, Raise e) /\
              drv_calls t = [].
Proof.
  unfold malformed_request, Receiver.do_POST_try.
  destruct (Http.content_length req) as [n|e]; [|intros _; cbn; eauto].
  cbn [lift bind app]. destruct (n =? 0).
  { intros _. cbn. eauto. }
  destruct (Http.payload req) as [msg|e]; [|intros _; cbn; eauto].
  destruct msg as [| | | | |l|d]; try (intros _; cbn; eauto; fail).
  cbn [dense_shape]. intro H. apply negb_true_iff, andb_false_iff in H.
  cbn [emit lift bind app py_get].
  destruct (dict_get d "kind") as [k|]; cbn [is_str negb].
  2:{ cbn. eauto. }
  destruct (is_str k "humanoid16"); cbn [negb].
  2:{ cbn. eauto. }
  destruct H as [H|H]; [discriminate|].
  destruct (dict_get d "degrees") as [[| | | | |ds|]|]; cbn; eauto.
  rewrite H. cbn. eauto.
Qed.

Lemma ReceiverWs_on_message_malformed g message :
  malformed_frame message = true ->
  trace (ReceiverWs.on_message g message) = [] /\
  (forall d, message = Ok (VDict d) -> ReceiverWs.on_message g message = ret tt).
Proof.
  unfold malformed_frame, ReceiverWs.on_message.
  destruct message as [msg|e]; [|intros _; split; [reflexivity | discriminate]].
  destruct msg as [| | | | |l|d];
    try (intros _; split; [reflexivity | discriminate]).
  cbn [is_sparse dense_shape]. intro H. apply andb_true_iff in H.
  destruct H as [Hs Hd]. apply negb_true_iff in Hs, Hd.
  apply andb_false_iff in Hd.
  cbn [lift bind app py_get].
  assert (E : is_str (match dict_get d "type" with Some v => v | None => VNone end)
                "servos" = false).
  { destruct (dict_get d "type"); [exact Hs | reflexivity]. }
  rewrite E.
  assert (R : (kind <- lift (py_get (VDict d) "kind" VNone) ;;
               if negb (is_str kind "humanoid16") then ret tt
               else degrees <- lift (py_get (VDict d) "degrees" VNone) ;;
                    match degrees with
                    | VList ds =>
                        if negb (Nat.eqb (List.length ds) 16) then ret tt
                        else
                          for_each (enumerate 0 ds)
                            (fun '(i, deg) =>
                               pulse <- ReceiverWs.degrees_to_pulse deg ;;
                               ReceiverWs.set_bus_servo g (i + 1) pulse 80) ;;;
                          head <- lift (py_get (VDict d) "head" VNone) ;;
                          ReceiverWs.dense_head g head
                    | _ => ret tt
                    end) = ret tt).
  { cbn [lift bind app py_get].
    destruct (dict_get d "kind") as [k|]; cbn [is_str negb]; [|reflexivity].
    destruct (is_str k "humanoid16"); cbn [negb]; [|reflexivity].
    destruct Hd as [Hd|Hd]; [discriminate|].
    destruct (dict_get d "degrees") as [[| | | | |ds|]|]; try reflexivity.
    rewrite Hd. reflexivity. }
  cbn [lift bind app py_get] in R. rewrite R.
  split; [reflexivity | intros; reflexivity].
Qed.

(** C2, as amended.  A dense command that is not a JSON object with kind
    "humanoid16" and a "degrees" list of exactly sixteen entries (the body or
    frame does not parse, the discriminator is wrong, the list is missing or
    has another length) leads to no driver call.  The HTTP receiver
    servo_reciever.py prints the error and answers 400 with the error in the
    body.  The WebSocket receiver reports nothing to the caller: the turn of
    its loop for such a frame makes no driver call, sends nothing and prints
    nothing, and when the frame is a JSON object the turn ends normally, so
    that the loop goes on to the next frame. *)
Theorem malformed_command_not_applied :
  (forall g last now req,
     Http.path req = "/servo"%string -> malformed_request req = true ->
     exists e,
       snd (Receiver.do_POST g last now req) = Http.bad_request e /\
       In (EvPrint (LogError e)) (fst (Receiver.do_POST g last now req)) /\
       drv_calls (fst (Receiver.do_POST g last now req)) = []) /\
  (forall g message,
     malformed_frame message = true ->
     trace (ReceiverWs.on_message g message) = [] /\
     (forall d, message = Ok (VDict d) ->
                ReceiverWs.on_message g message = ret tt)).
Proof.
  split.
  - intros g last now req Hp Hm. unfold Receiver.do_POST.
    rewrite Hp, String.eqb_refl. cbn [negb].
    destruct (Receiver_do_POST_try_malformed g last now req Hm) as (t & e & -> & Hq).
    exists e. cbn [fst snd]. split; [reflexivity|]. split.
    + apply in_or_app. right. now left.
    + rewrite drv_calls_app, Hq. reflexivity.
  - exact ReceiverWs_on_message_malformed.
Qed.

End Rejected.

(** The claim C2 fails as stated.  On the WebSocket receiver a dense frame
    with a wrong discriminator is dropped and nothing is reported, neither to
    the caller nor in the log.  On the HTTP receiver a command whose fourth
    entry is [null] is answered with 400 after the first three servos have
    been moved. *)
Lemma rejected_command_counterexample :
  ReceiverWs.handler (Sample.with_controller Sample.hiwonder_controller)
    [Ok (Sample.command "other" (repeat (VInt 90) 16))]
  = [EvPrint LogClientConnected; EvPrint LogClientDisconnected] /\
  Receiver.do_POST (Sample.with_controller Sample.hiwonder_controller) 0 0
    (Sample.post (Sample.dense (repeat (VInt 90) 3 ++ VNone :: repeat (VInt 90) 12)))
  = ([EvRead 200;
      EvDrv set_bus_servo_pulse 1 500 80;
      EvDrv set_bus_servo_pulse 2 500 80;
      EvDrv set_bus_servo_pulse 3 500 80;
      EvPrint (LogError TypeError)],
     Http.bad_request TypeError).
Proof. split; reflexivity. Qed.

Lemma malformed_command_not_applied_witness :
  (exists e,
     snd (Receiver.do_POST (Sample.with_controller Sample.hiwonder_controller) 0 0
            (Sample.post (Sample.command "other" (repeat (VInt 90) 16))))
     = Http.bad_request e /\
     In (EvPrint (LogError e))
        (fst (Receiver.do_POST (Sample.with_controller Sample.hiwonder_controller) 0 0
                (Sample.post (Sample.command "other" (repeat (VInt 90) 16))))) /\
     drv_calls
       (fst (Receiver.do_POST (Sample.with_controller Sample.hiwonder_controller) 0 0
               (Sample.post (Sample.command "other" (repeat (VInt 90) 16))))) = []) /\
  trace (ReceiverWs.on_message (Sample.with_controller Sample.hiwonder_controller)
           (Ok (Sample.dense (repeat (VInt 90) 15)))) = [].
Proof.
  split.
  - apply (proj1 malformed_command_not_applied); reflexivity.
  - apply (proj2 malformed_command_not_applied). reflexivity.
Defined.

(** ** The streaming receiver *)

Section Streaming.

Lemma bind_ret_l {A B} (a : A) (f : A -> eff B) : bind (ret a) f = f a.
Proof. unfold bind, ret. destruct (f a). reflexivity. Qed.

Lemma for_each_raise {A} (x : A) (xs : list A) (body : A -> eff unit) (e : exn) :
  body x = ([], Raise e) -> for_each (x :: xs) body = ([], Raise e).
Proof. intro H. cbn [for_each]. rewrite H. reflexivity. Qed.

Lemma for_each_skip {A} (x : A) (xs : list A) (body : A -> eff unit) :
  body x = ret tt -> for_each (x :: xs) body = for_each xs body.
Proof.
  intro H. cbn [for_each]. rewrite H.
  exact (bind_ret_l tt (fun _ => for_each xs body)).
Qed.

(** A loop is left at the first turn that raises: what comes after it in the
    sequence has no part in the result. *)
Lemma for_each_stops {A} (pre : list A) (x : A) (post : list A)
      (body : A -> eff unit) (e : exn) :
  outcome (body x) = Raise e ->
  for_each (pre ++ x :: post) body = for_each (pre ++ [x]) body.
Proof.
  intro H. induction pre as [|a pre IH]; cbn [app for_each].
  - destruct (body x) as [t r]. cbn in H. subst r. reflexivity.
  - now rewrite IH.
Qed.

(** A frame on which the turn of the loop raises before any effect ends the
    handler. *)
Lemma handler_raise g message rest e :
  ReceiverWs.on_message g message = ([], Raise e) ->
  ReceiverWs.handler g (message :: rest)
  = [EvPrint LogClientConnected; EvPrint (LogError e); EvPrint LogClientDisconnected].
Proof.
  intro H. unfold ReceiverWs.handler.
  rewrite (for_each_raise _ _ _ e H). reflexivity.
Qed.

Lemma on_message_not_dict g v :
  is_dict v = false -> ReceiverWs.on_message g (Ok v) = ([], Raise AttributeError).
Proof. destruct v; try reflexivity. discriminate. Qed.

(** C8, as amended.  On a streaming connection a frame that is not valid
    JSON, or is valid JSON but not an object, is logged and ends the loop of
    the handler: the frames that follow on the connection are not processed
    and the connection is closed, wherever the frame comes in the stream.
    A frame that is a JSON object but neither
    a sparse nor a well-formed dense command is skipped without a log line,
    and the frames that follow are processed. *)
Theorem malformed_frame_on_stream :
  (forall g e rest,
     ReceiverWs.handler g (Raise e :: rest)
     = [EvPrint LogClientConnected; EvPrint (LogError e);
        EvPrint LogClientDisconnected]) /\
  (forall g v rest,
     is_dict v = false ->
     ReceiverWs.handler g (Ok v :: rest)
     = [EvPrint LogClientConnected; EvPrint (LogError AttributeError);
        EvPrint LogClientDisconnected]) /\
  (forall g pre bad rest e,
     outcome (ReceiverWs.on_message g bad) = Raise e ->
     ReceiverWs.handler g (pre ++ bad :: rest) = ReceiverWs.handler g (pre ++ [bad])) /\
  (forall g d rest,
     malformed_frame (Ok (VDict d)) = true ->
     ReceiverWs.handler g (Ok (VDict d) :: rest) = ReceiverWs.handler g rest).
Proof.
  split; [|split; [|split]].
  - intros. now apply handler_raise.
  - intros g v rest H. apply handler_raise. now apply on_message_not_dict.
  - intros g pre bad rest e H. unfold ReceiverWs.handler.
    now rewrite (for_each_stops pre bad rest _ e H).
  - intros g d rest H. unfold ReceiverWs.handler.
    rewrite for_each_skip; [reflexivity|].
    now apply (proj2 (ReceiverWs_on_message_malformed g _ H) d).
Qed.

Lemma malformed_frame_on_stream_witness :
  ReceiverWs.handler (Sample.with_controller Sample.hiwonder_controller)
    [Ok (VInt 7); Ok Sample.neutral]
  = [EvPrint LogClientConnected; EvPrint (LogError AttributeError);
     EvPrint LogClientDisconnected] /\
  ReceiverWs.handler (Sample.with_controller Sample.hiwonder_controller)
    [Ok (Sample.command "other" []); Ok Sample.neutral]
  = ReceiverWs.handler (Sample.with_controller Sample.hiwonder_controller)
      [Ok Sample.neutral].
Proof.
  split.
  - apply (proj1 (proj2 malformed_frame_on_stream)). reflexivity.
  - apply (proj2 (proj2 (proj2 malformed_frame_on_stream))
             (Sample.with_controller Sample.hiwonder_controller)
             [(lit "kind", VStr (lit "other")); (lit "degrees", VList [])]).
    reflexivity.
Defined.

(** The claim C8 fails as stated: after a frame that is not valid JSON the
    dense command that follows on the same connection moves no servo, while
    the same command on a connection of its own moves all sixteen. *)
Lemma frame_after_malformed_counterexample :
  ReceiverWs.handler (Sample.with_controller Sample.hiwonder_controller)
    [Raise JSONDecodeError; Ok Sample.neutral]
  = [EvPrint LogClientConnected; EvPrint (LogError JSONDecodeError);
     EvPrint LogClientDisconnected] /\
  drv_calls (ReceiverWs.handler (Sample.with_controller Sample.hiwonder_controller)
               [Ok Sample.neutral])
  = neutral_bus_calls set_bus_servo_pulse.
Proof. split; reflexivity. Qed.

Lemma ReceiverWs_handler_unsent g frames :
  Forall unsent (ReceiverWs.handler g frames).
Proof.
  unfold ReceiverWs.handler.
  change (Forall unsent (trace ?m)) with (all_events unsent m).
  unfold ReceiverWs.on_message, ReceiverWs.sparse_head, ReceiverWs.dense_head,
    ReceiverWs.set_bus_servo, ReceiverWs.set_pwm_servo, call, drv_call.
  repeat first [ apply all_emit; reflexivity | eff_step ].
Qed.

(** C6, on the code.  The client sends [{"type": "ping"}] and waits for a
    frame of type "pong".  The receiver has no branch for it: the frame is
    not a dense command, so the turn of the loop ends without a driver call
    and without a reply, and the receiver never sends a frame at all. *)
Theorem ping_is_not_answered :
  Client.send_ping (Raise TimeoutError)
  = ([EvSend Client.ping_frame], Raise TimeoutError) /\
  (forall g, ReceiverWs.on_message g (Ok Client.ping_frame) = ret tt) /\
  (forall g, ReceiverWs.handler g [Ok Client.ping_frame]
             = [EvPrint LogClientConnected; EvPrint LogClientDisconnected]) /\
  (forall g frames, filter is_send (ReceiverWs.handler g frames) = []).
Proof.
  split; [reflexivity|]. split; [reflexivity|]. split; [reflexivity|].
  intros g frames. pose proof (ReceiverWs_handler_unsent g frames) as H.
  induction H as [|ev t Hev _ IH]; [reflexivity|].
  cbn. unfold unsent in Hev. now rewrite Hev.
Qed.

End Streaming.

(** ** A driver call that raises in the middle of a batch *)

Section DriverErrors.

Lemma enumerate_In {A} (s : Z) (xs : list A) (i : Z) (x : A) :
  In (i, x) (enumerate s xs) -> In x xs.
Proof.
  revert s. induction xs as [|y xs IH]; intros s H; cbn in *; [exact H|].
  destruct H as [[= _ <-]|H]; [now left | right; eauto].
Qed.

(** servo_reciever.py: whatever the driver raises, the loop over "degrees"
    runs to its end and calls the driver once for each joint, in order. *)
Lemma Receiver_batch_attempts_every_joint g c m ds :
  Receiver.ROBOT_AVAILABLE g = true -> Receiver.controller g = Some c ->
  bus_method (Some c) = Some m ->
  (forall d, In d ds -> exists f, py_float d = Ok f) ->
  exists tr,
    for_each (enumerate 0 ds)
      (fun '(i, deg) =>
         let servo_id := i + 1 in
         pulse <- Receiver.degrees_to_pulse deg ;;
         Receiver.set_bus_servo g servo_id pulse 80) = (tr, Ok tt) /\
    map drv_id (drv_calls tr) = map (fun '(i, _) => i + 1) (enumerate 0 ds).
Proof.
  intros Hav Hc Hm Hnum.
  set (call_of := fun x : Z * pyval =>
         EvDrv m (fst x + 1) (clamp (pulse_of (snd x)) 0 1000) 80).
  set (tr := fun x : Z * pyval =>
         call_of x :: error_line c m (fst x + 1) (clamp (pulse_of (snd x)) 0 1000) 80).
  exists (flat_map tr (enumerate 0 ds)). split.
  - apply for_each_traces. intros [i deg] Hin.
    destruct (Hnum deg (enumerate_In _ _ _ _ Hin)) as (f & Ef).
    destruct (receiver_conversion_total Receiver.degrees_to_pulse deg f
                (or_introl eq_refl) Ef) as (p & Ep & _).
    assert (P : pulse_of deg = p) by (unfold pulse_of; now rewrite Ep).
    cbv zeta. rewrite Ep.
    rewrite (bind_ret_l p (fun pulse => Receiver.set_bus_servo g (i + 1) pulse 80)).
    rewrite (Receiver_set_bus_servo_trace g c m) by assumption.
    unfold tr, call_of. cbn [fst snd]. rewrite P. reflexivity.
  - rewrite (drv_calls_flat_map tr call_of).
    + rewrite map_map. apply map_ext. now intros [i deg].
    + intros x _. unfold tr. cbn [drv_calls filter is_drv call_of].
      change (filter is_drv ?l) with (drv_calls l).
      now rewrite drv_calls_error_line.
Qed.

(** C7, on the code.  The bus servo 3 does not answer and its call raises.
    In servo_receiver_ws.py and in tonypi_servo_server.py [set_bus_servo] has
    no [try]: the exception leaves the loop over the joints, the servos 4 to
    16 are never called, and the handler of the connection ends (or the
    request is answered with 400).  servo_reciever.py, whose [set_bus_servo]
    catches the exception, prints it and calls the driver for all sixteen. *)
Theorem driver_error_mid_batch :
  ReceiverWs.handler (Sample.with_controller (Sample.faulty_controller 3))
    [Ok Sample.neutral]
  = [EvPrint LogClientConnected;
     EvDrv set_bus_servo_pulse 1 500 80;
     EvDrv set_bus_servo_pulse 2 500 80;
     EvDrv set_bus_servo_pulse 3 500 80;
     EvPrint (LogError OSError);
     EvPrint LogClientDisconnected] /\
  snd (TonyPi.do_POST
         (TonyPi.configure (Sample.tonypi (Sample.faulty_controller 3))
            Sample.args TonyPi.new_handler)
         1000 (Sample.post Sample.neutral))
  = ([EvRead 200;
      EvDrv set_bus_servo_pulse 1 500 80;
      EvDrv set_bus_servo_pulse 2 500 80;
      EvDrv set_bus_servo_pulse 3 500 80],
     Ok (Http.bad_request OSError)) /\
  drv_calls
    (fst (Receiver.do_POST (Sample.with_controller (Sample.faulty_controller 3))
            0 0 (Sample.post Sample.neutral)))
  = neutral_bus_calls set_bus_servo_pulse /\
  In (EvPrint (LogServoError 3 OSError))
     (fst (Receiver.do_POST (Sample.with_controller (Sample.faulty_controller 3))
             0 0 (Sample.post Sample.neutral))).
Proof.
  split; [reflexivity|]. split; [reflexivity|]. split; [reflexivity|].
  cbn. tauto.
Qed.

End DriverErrors.

(** ** The rate limit of tonypi_servo_server.py *)

Section RateLimit.
Local Open Scope Q_scope.

(** C3, on the code.  Two well-formed commands arrive 10 ms apart while the
    server allows 10 commands a second.  [handler_factory] builds a new
    [Handler] for each connection and assigns [last_at] and the other
    attributes only after the constructor has served the request: the rate
    limit then reads an attribute that does not exist, and neither command
    reaches a servo.  On handlers that carry the attributes the factory
    assigns, each starts from its own [last_at = 0.0]: both commands are
    applied and the second is not dropped. *)
Theorem rate_limit_not_shared :
  (forall ctrl a now cl p,
     snd (TonyPi.handler_factory ctrl a now (Http.Request "/servo" cl p))
     = ([], Raise AttributeError)) /\
  TonyPi.serve (Sample.tonypi Sample.hiwonder_controller) Sample.args
    [(1000, Sample.post Sample.neutral);
     (1000 + (1 # 100), Sample.post Sample.neutral)]
  = [([], Raise AttributeError); ([], Raise AttributeError)] /\
  snd (TonyPi.do_POST
         (TonyPi.configure (Sample.tonypi Sample.hiwonder_controller)
            Sample.args TonyPi.new_handler)
         1000 (Sample.post Sample.neutral))
  = (EvRead 200 :: neutral_bus_calls set_bus_servo_pulse, Ok Http.no_content) /\
  snd (TonyPi.do_POST
         (TonyPi.configure (Sample.tonypi Sample.hiwonder_controller)
            Sample.args TonyPi.new_handler)
         (1000 + (1 # 100)) (Sample.post Sample.neutral))
  = (EvRead 200 :: neutral_bus_calls set_bus_servo_pulse, Ok Http.no_content).
Proof. repeat split. Qed.

(** A handler that carries the attributes the factory assigns starts from
    [last_at = 0.0] and an interval of at most one second: once the clock has
    passed one second, no request handled by it is rate limited. *)
Lemma configured_handler_never_limits ctrl a h now req :
  Http.path req = "/servo"%string -> 1 <= now ->
  TonyPi.do_POST (TonyPi.configure ctrl a h) now req
  = (TonyPi.set_last_at (TonyPi.configure ctrl a h) now,
     catch (TonyPi.do_POST_try (TonyPi.set_last_at (TonyPi.configure ctrl a h) now) req)
           (fun e => ret (Http.bad_request e))).
Proof.
  intros Hp Hnow. unfold TonyPi.do_POST. rewrite Hp, String.eqb_refl.
  cbn [negb TonyPi.configure TonyPi.last_at TonyPi.min_interval_s].
  destruct (Qltb_spec (now - 0) (1 / py_max 1 (TonyPi.arg_max_fps a)));
    [|reflexivity].
  exfalso.
  assert (B : 1 / py_max 1 (TonyPi.arg_max_fps a) <= 1).
  { unfold py_max, py_ltb, PyOrd_Q.
    destruct (Qltb_spec 1 (TonyPi.arg_max_fps a)) as [L|L].
    - apply Qle_shift_div_r; lra.
    - apply Qle_shift_div_r; lra. }
  lra.
Qed.

Lemma outcome_bind {A B} (m : eff A) (f : A -> eff B) (b : B) :
  outcome (bind m f) = Ok b -> exists a, outcome m = Ok a /\ outcome (f a) = Ok b.
Proof.
  destruct m as [t [a|e]]; cbn; [|discriminate].
  destruct (f a) as [t' r] eqn:E. cbn. intro H. exists a. now rewrite E.
Qed.

Lemma TonyPi_success_is_204 self req r :
  outcome (TonyPi.do_POST_try self req) = Ok r -> r = Http.no_content.
Proof.
  unfold TonyPi.do_POST_try. intro H.
  repeat match goal with
         | H : outcome (bind _ _) = Ok _ |- _ =>
             apply outcome_bind in H; destruct H as (? & _ & H)
         | H : outcome (match ?x with _ => _ end) = Ok _ |- _ => destruct x
         end.
  cbn in H. congruence.
Qed.

(** C10.  In tonypi_servo_server.py, a POST to /servo that the rate limit
    rejects (the clock is less than the minimum interval after [last_at]) is
    answered 204 with the CORS headers and no body, the answer of a command
    that was applied; nothing is read from the request, no driver call is
    made and [last_at] is left as it was. *)
Theorem rate_limited_post (self : TonyPi.Handler) (now last min_interval : Q)
        (req : Http.request) :
  Http.path req = "/servo"%string ->
  TonyPi.last_at self = Some last ->
  TonyPi.min_interval_s self = Some min_interval ->
  now - last < min_interval ->
  TonyPi.do_POST self now req = (self, ([], Ok Http.no_content)) /\
  Http.status Http.no_content = 204%Z /\
  (forall self' req' r,
     outcome (TonyPi.do_POST_try self' req') = Ok r -> r = Http.no_content).
Proof.
  intros Hp Hl Hm Hlt. split; [|split; [reflexivity | exact TonyPi_success_is_204]].
  unfold TonyPi.do_POST. rewrite Hp, String.eqb_refl, Hl, Hm. cbn [negb].
  destruct (Qltb_spec (now - last) min_interval); [reflexivity | contradiction].
Qed.

Lemma rate_limited_post_witness :
  TonyPi.do_POST
    (TonyPi.configure (Sample.tonypi Sample.hiwonder_controller) Sample.args
       TonyPi.new_handler)
    (1 # 20) (Sample.post Sample.neutral)
  = (TonyPi.configure (Sample.tonypi Sample.hiwonder_controller) Sample.args
       TonyPi.new_handler,
     ([], Ok Http.no_content)) /\
  Http.status Http.no_content = 204%Z /\
  (forall self' req' r,
     outcome (TonyPi.do_POST_try self' req') = Ok r -> r = Http.no_content).
Proof.
  apply (rate_limited_post _ (1 # 20) 0 (1 # 10)); reflexivity.
Defined.

End RateLimit.

(** * Further properties of the code *)

(** ** The PWM conversion and the floats that are not finite *)

Section PwmPulse.
Local Open Scope Q_scope.







(** X2.  A float that is not finite never makes a conversion raise.  Because
    [min] and [max] keep their first argument when a comparison with NaN is
    false, the clamp turns NaN into its upper bound: NaN and plus infinity are
    converted as 180 degrees (170 by the client), minus infinity as 0 degrees
    (10 by the client). *)
Theorem conversions_of_special_floats (f : pyfloat) :
  is_finite f = false ->
  (forall conv, In conv receiver_conversions ->
     conv (VFloat f) = conv (VInt (special_angle f))) /\
  (forall conv, In conv receiver_pwm_conversions ->
     conv (VFloat f) = conv (VInt (special_angle f))) /\
  Client.degrees_to_pulse f
  = Client.degrees_to_pulse
      (Fin (inject_Z (match f with NInf => 10 | _ => 170 end))).
Proof.
  intro H. destruct f as [q| | |]; [discriminate| | |];
    (split; [|split]); try reflexivity;
    intros conv Hin;
    repeat (destruct Hin as [<- | Hin]; [reflexivity|]); destruct Hin.
Qed.

Lemma conversions_of_special_floats_witness :
  Receiver.degrees_to_pulse (VFloat NaN) = ret 1000%Z /\
  Receiver.degrees_to_pwm_us (VFloat NInf) = ret 500%Z /\
  Client.degrees_to_pulse NaN = Ok 944%Z.
Proof.
  destruct (conversions_of_special_floats NaN eq_refl) as (B & _ & C).
  destruct (conversions_of_special_floats NInf eq_refl) as (_ & P & _).
  split; [|split].
  - rewrite (B Receiver.degrees_to_pulse (or_introl eq_refl)). reflexivity.
  - rewrite (P Receiver.degrees_to_pwm_us (or_introl eq_refl)). reflexivity.
  - rewrite C. reflexivity.
Defined.

End PwmPulse.

(** ** Reset to neutral at shutdown *)

Section Shutdown.

Lemma py_max_Z (a b : Z) : py_max a b = Z.max a b.
Proof.
  unfold py_max, py_ltb, PyOrd_Z. destruct (Z.ltb_spec a b); lia.
Qed.

(** X3.  servo_reciever.py with a backend present: [reset_to_neutral] calls
    the driver for the sixteen bus servos (pulse 500) and the two PWM channels
    (1500 microseconds), in this order and with the duration it is given (0
    when that is negative), and returns normally even when driver calls
    raise.  The handler of SIGINT and SIGTERM does so with 500 ms; without a
    backend it makes no driver call. *)
Theorem shutdown_reset (g : Receiver.globals) (bm pm : drv_method) :
  Receiver.ROBOT_AVAILABLE g = true ->
  bus_method (Receiver.controller g) = Some bm ->
  pwm_method (Receiver.controller g) = Some pm ->
  (forall t,
     outcome (Receiver.reset_to_neutral g t) = Ok tt /\
     drv_calls (trace (Receiver.reset_to_neutral g t))
     = neutral_calls bm pm (Z.max 0 t)) /\
  outcome (Receiver.shutdown_handler g) = Ok tt /\
  drv_calls (trace (Receiver.shutdown_handler g)) = neutral_calls bm pm 500 /\
  (forall c, Receiver.shutdown_handler (Receiver.Globals false c)
             = ([EvPrint LogShutdown], Ok tt)).
Proof.
  intros Hav Hb Hp.
  destruct (bus_method_has _ _ Hb) as (c & Hc & _). rewrite Hc in Hb, Hp.
  assert (R : forall t,
             Receiver.reset_to_neutral g t
             = (reset_events c bm pm (Z.max 0 t), Ok tt)).
  { intro t. rewrite <- py_max_Z. now apply Receiver_reset_trace. }
  split; [|split; [|split]].
  - intro t. rewrite R. split; [reflexivity | apply drv_calls_reset].
  - unfold Receiver.shutdown_handler. rewrite Hav, R. reflexivity.
  - unfold Receiver.shutdown_handler. rewrite Hav, R.
    cbn [emit bind trace fst app drv_calls filter is_drv].
    apply drv_calls_reset.
  - reflexivity.
Qed.

Lemma shutdown_reset_witness :
  drv_calls (trace (Receiver.shutdown_handler
                      (Sample.with_controller (Sample.faulty_controller 3))))
  = neutral_calls set_bus_servo_pulse set_pwm_servo_pulse 500.
Proof.
  apply (shutdown_reset (Sample.with_controller (Sample.faulty_controller 3))
           set_bus_servo_pulse set_pwm_servo_pulse); reflexivity.
Defined.

End Shutdown.

(** ** The probes for a driver *)

Section Probes.

(** X4.  The two receivers try the hiwonder stack first and fall back to
    [HiwonderSDK] only on [ImportError]: any other exception of a probe (a
    board that cannot be opened, say) ends the process at import.
    tonypi_servo_server.py tries [HiwonderSDK] first and swallows every
    exception of an attempt, so a failing first attempt of any kind falls
    back to the hiwonder stack. *)
Theorem probe_order_and_fallback :
  (forall c p,
     outcome (Receiver.module_init (Receiver.Loaded c) p)
     = Ok (Receiver.Globals true (Some c))) /\
  (forall c,
     outcome (Receiver.module_init (Receiver.Fails ImportError) (Receiver.Loaded c))
     = Ok (Receiver.Globals true (Some c))) /\
  (forall e p,
     e <> ImportError ->
     Receiver.module_init (Receiver.Fails e) p = ([], Raise e)) /\
  (forall e,
     e <> ImportError ->
     Receiver.module_init (Receiver.Fails ImportError) (Receiver.Fails e)
     = ([], Raise e)) /\
  (forall b p,
     TonyPi.TonyPiController_init (Receiver.Loaded b) p
     = ret (TonyPi.Controller TonyPi.HiwonderSDK_Board (Some b) None)) /\
  (forall e c,
     TonyPi.TonyPiController_init (Receiver.Fails e) (Receiver.Loaded c)
     = ret (TonyPi.Controller TonyPi.hiwonder_Controller None (Some c))).
Proof.
  repeat split.
  - intros e p H. destruct e; try reflexivity. now contradiction H.
  - intros e H. destruct e; try reflexivity. now contradiction H.
Qed.

Lemma probe_order_and_fallback_witness :
  Receiver.module_init (Receiver.Fails OSError)
    (Receiver.Loaded Sample.hiwonder_board)
  = ([], Raise OSError).
Proof.
  apply (proj1 (proj2 (proj2 probe_order_and_fallback))). discriminate.
Defined.

End Probes.

(** ** The debug output of servo_reciever.py *)

Section DebugOutput.
Local Open Scope Q_scope.

Lemma drv_calls_bind_ext {A B} (m : eff A) (f f' : A -> eff B) :
  (forall a, drv_calls (trace (f a)) = drv_calls (trace (f' a))) ->
  drv_calls (trace (bind m f)) = drv_calls (trace (bind m f')).
Proof.
  intro H. rewrite !trace_bind, !drv_calls_app.
  destruct (outcome m); [now rewrite H | reflexivity].
Qed.

Lemma debug_output_quiet (last now : Q) (ds : list pyval) :
  drv_calls
    (trace (if negb (Qle_bool (now - last) 1) then
              emit (EvSetLastLog now) ;;;
              lift (Receiver.map_result py_round (firstn 4 ds)) ;;;
              emit (EvPrint LogReceived)
            else ret tt)) = [].
Proof.
  apply quiet_drv_calls.
  change (Forall quiet (trace ?m)) with (all_events quiet m).
  repeat first [ apply all_emit; reflexivity | eff_step ].
Qed.

Lemma Receiver_do_POST_try_calls g last now last' now' req :
  drv_calls (trace (Receiver.do_POST_try g last now req))
  = drv_calls (trace (Receiver.do_POST_try g last' now' req)).
Proof.
  unfold Receiver.do_POST_try.
  repeat first
    [ reflexivity
    | rewrite !debug_output_quiet; reflexivity
    | apply drv_calls_bind_ext; intros
    | match goal with
      | |- context [match ?x with _ => _ end] => destruct x
      end ].
Qed.

Lemma Receiver_do_POST_calls g last now req :
  drv_calls (fst (Receiver.do_POST g last now req))
  = if negb (Http.path req =? "/servo")%string then []
    else drv_calls (trace (Receiver.do_POST_try g last now req)).
Proof.
  unfold Receiver.do_POST.
  destruct (negb (Http.path req =? "/servo")%string); [reflexivity|].
  destruct (Receiver.do_POST_try g last now req) as [t [u|e]]; cbn [fst trace].
  - reflexivity.
  - rewrite drv_calls_app. cbn. now rewrite app_nil_r.
Qed.

(** X5.  servo_reciever.py: what a request makes the driver do depends on the
    request only, not on the clock nor on the time of the last debug line.
    The debug output at the end of [do_POST] has no part in the driver
    calls. *)
Theorem driver_calls_independent_of_clock g last now last' now' req :
  drv_calls (fst (Receiver.do_POST g last now req))
  = drv_calls (fst (Receiver.do_POST g last' now' req)).
Proof.
  rewrite !Receiver_do_POST_calls.
  destruct (negb (Http.path req =? "/servo")%string); [reflexivity|].
  apply Receiver_do_POST_try_calls.
Qed.

Lemma Receiver_do_POST_try_debug g last now req :
  all_events (debug_allowed last now) (Receiver.do_POST_try g last now req).
Proof.
  unfold Receiver.do_POST_try, Receiver.apply_head, Receiver.set_bus_servo,
    Receiver.set_pwm_servo, call, drv_call.
  destruct (Qle_bool_spec (now - last) 1) as [L|L]; cbn [negb].
  - repeat first [ apply all_emit; exact I | eff_step ].
  - assert (1 < now - last) by lra.
    repeat first [ apply all_emit; cbn; auto; fail | eff_step ].
Qed.

Lemma last_log_time_after_allowed last now t x :
  Forall (debug_allowed last now) t ->
  Receiver.last_log_time_after t x = x \/
  (Receiver.last_log_time_after t x = now /\ 1 < now - last).
Proof.
  intro H. revert x. induction H as [|ev t Hev _ IH]; intro x; [now left|].
  destruct ev; cbn [Receiver.last_log_time_after]; try apply IH.
  cbn in Hev. destruct Hev as [-> Hlt].
  destruct (IH now) as [E|[E _]]; right; split; auto.
Qed.

(** X6.  servo_reciever.py prints its debug line at most once a second: a
    request handled at [now] prints it, and moves
    [ServoHandler.last_log_time] (to [now]), only when more than one second
    has passed since the time recorded; otherwise the recorded time is left
    as it was. *)
Theorem debug_output_throttled g last now req :
  (Receiver.last_log_time_after (fst (Receiver.do_POST g last now req)) last = last \/
   (Receiver.last_log_time_after (fst (Receiver.do_POST g last now req)) last = now /\
    1 < now - last)) /\
  (In (EvPrint LogReceived) (fst (Receiver.do_POST g last now req)) ->
   1 < now - last) /\
  (now - last <= 1 ->
   Receiver.last_log_time_after (fst (Receiver.do_POST g last now req)) last = last).
Proof.
  assert (A : Forall (debug_allowed last now) (fst (Receiver.do_POST g last now req))).
  { unfold Receiver.do_POST.
    destruct (negb (Http.path req =? "/servo")%string); [constructor|].
    pose proof (Receiver_do_POST_try_debug g last now req) as H.
    destruct (Receiver.do_POST_try g last now req) as [t [u|e]]; cbn in *.
    - exact H.
    - apply Forall_app. split; [exact H | repeat constructor]. }
  pose proof (last_log_time_after_allowed last now _ last A) as B.
  split; [exact B|]. split.
  - intro Hin. rewrite Forall_forall in A. exact (A _ Hin).
  - intro Hle. destruct B as [B|[_ B]]; [exact B | lra].
Qed.

Lemma debug_output_throttled_witness :
  Receiver.last_log_time_after
    (fst (Receiver.do_POST (Sample.with_controller Sample.hiwonder_controller)
            1000 (1000 + (1 # 2)) (Sample.post Sample.neutral))) 1000
  = 1000.
Proof.
  apply (proj2 (proj2 (debug_output_throttled
                         (Sample.with_controller Sample.hiwonder_controller)
                         1000 (1000 + (1 # 2)) (Sample.post Sample.neutral)))).
  vm_compute. discriminate.
Defined.

End DebugOutput.

(** ** Dense commands on servo_reciever.py *)

Section Dense.

Lemma dense_shape_inv d ds :
  dense_shape (VDict d) = true -> dict_get d "degrees" = Some (VList ds) ->
  (exists k, dict_get d "kind" = Some k /\ is_str k "humanoid16" = true) /\
  List.length ds = 16%nat.
Proof.
  cbn [dense_shape]. intros H E. rewrite E in H.
  apply andb_true_iff in H. destruct H as [Hk Hl].
  split.
  - destruct (dict_get d "kind") as [k|]; [eauto | discriminate].
  - now apply Nat.eqb_eq.
Qed.

Lemma bind_lift_Ok {A B} (a : A) (f : A -> eff B) : bind (lift (Ok a)) f = f a.
Proof. exact (bind_ret_l a f). Qed.

Lemma bind_then_congr {A B} (m : eff A) (x y : eff B) :
  x = y -> bind m (fun _ => x) = bind m (fun _ => y).
Proof. now intros ->. Qed.

Lemma bind_assoc {A B C} (m : eff A) (f : A -> eff B) (h : B -> eff C) :
  bind (bind m f) h = bind m (fun a => bind (f a) h).
Proof.
  destruct m as [t [a|e]]; cbn; [|reflexivity].
  destruct (f a) as [t1 [b|e]]; cbn; [|reflexivity].
  destruct (h b) as [t2 r]. now rewrite app_assoc.
Qed.

Lemma Receiver_do_POST_try_dense g last now req d ds n :
  carries_dense req d ds -> Http.content_length req = Ok n ->
  Receiver.do_POST_try g last now req
  = (emit (EvRead n) ;;;
     bus_loop g 0 ds ;;;
     Receiver.apply_head g (head_of d) ;;;
     debug_output last now ds).
Proof.
  intros (Hp & (n' & Hn & Hnz) & Hpay & Hshape & Hds) Hcl.
  rewrite Hcl in Hn. injection Hn as <-.
  destruct (dense_shape_inv d ds Hshape Hds) as ((k & Hk & Hstr) & Hlen).
  unfold Receiver.do_POST_try. rewrite Hcl, bind_lift_Ok.
  destruct (Z.eqb_spec n 0) as [|_]; [contradiction|].
  rewrite Hpay, bind_assoc. apply bind_then_congr.
  rewrite bind_lift_Ok. cbn [py_get]. rewrite Hk, bind_lift_Ok, Hstr.
  cbn [negb]. rewrite Hds, bind_lift_Ok, Hlen. cbn [Nat.eqb negb].
  apply bind_then_congr. rewrite bind_lift_Ok. reflexivity.
Qed.




Lemma clamp_id_Z (v lo hi : Z) : lo <= v <= hi -> clamp v lo hi = v.
Proof.
  intro H. unfold clamp, py_min, py_max, py_ltb, PyOrd_Z.
  destruct (Z.ltb_spec v hi).
  - destruct (Z.ltb_spec lo v); lia.
  - destruct (Z.ltb_spec lo hi); lia.
Qed.

Lemma enumerate_app {A} (s : Z) (xs ys : list A) :
  enumerate s (xs ++ ys)
  = enumerate s xs ++ enumerate (s + Z.of_nat (List.length xs)) ys.
Proof.
  revert s. induction xs as [|x xs IH]; intro s; cbn [enumerate app List.length].
  - now rewrite Z.add_0_r.
  - rewrite IH. do 3 f_equal. lia.
Qed.

Lemma for_each_app {A} (xs ys : list A) (body : A -> eff unit) :
  for_each (xs ++ ys) body = (for_each xs body ;;; for_each ys body).
Proof.
  induction xs as [|x xs IH]; cbn [app for_each].
  - symmetry. exact (bind_ret_l tt (fun _ => for_each ys body)).
  - rewrite IH. symmetry. apply bind_assoc.
Qed.

Lemma pulse_of_float_ok v :
  float_ok v ->
  Receiver.degrees_to_pulse v = ret (pulse_of v) /\ 0 <= pulse_of v <= 1000.
Proof.
  intros (f & Ef).
  destruct (receiver_conversion_total Receiver.degrees_to_pulse v f
              (or_introl eq_refl) Ef) as (p & Ep & B).
  unfold pulse_of. rewrite Ep. cbn. auto.
Qed.



Lemma bus_loop_floats g c m s ds :
  Receiver.ROBOT_AVAILABLE g = true -> Receiver.controller g = Some c ->
  bus_method (Some c) = Some m ->
  (forall v, In v ds -> float_ok v) ->
  bus_loop g s ds = (flat_map (bus_events c m) (enumerate s ds), Ok tt).
Proof.
  intros Hav Hc Hm Hnum. unfold bus_loop.
  apply for_each_traces. intros [i deg] Hin.
  destruct (pulse_of_float_ok deg (Hnum deg (enumerate_In _ _ _ _ Hin))) as (Ep & B).
  cbv zeta. rewrite Ep.
  rewrite (bind_ret_l _ (fun pulse => Receiver.set_bus_servo g (i + 1) pulse 80)).
  rewrite (Receiver_set_bus_servo_trace g c m) by assumption.
  unfold bus_events. cbn [fst snd]. rewrite clamp_id_Z by exact B. reflexivity.
Qed.

Lemma drv_calls_bus_events c m xs :
  drv_calls (flat_map (bus_events c m) xs)
  = map (fun x => EvDrv m (fst x + 1) (pulse_of (snd x)) 80) xs.
Proof.
  apply drv_calls_flat_map. intros x _. unfold bus_events.
  cbn [drv_calls filter is_drv]. change (filter is_drv ?l) with (drv_calls l).
  now rewrite drv_calls_error_line.
Qed.

Lemma bus_loop_stops g c m pre bad post e :
  Receiver.ROBOT_AVAILABLE g = true -> Receiver.controller g = Some c ->
  bus_method (Some c) = Some m ->
  (forall v, In v pre -> float_ok v) -> py_float bad = Raise e ->
  bus_loop g 0 (pre ++ bad :: post)
  = (flat_map (bus_events c m) (enumerate 0 pre), Raise e).
Proof.
  intros Hav Hc Hm Hnum Hbad. unfold bus_loop.
  rewrite enumerate_app, for_each_app.
  change (for_each (enumerate 0 pre) _) with (bus_loop g 0 pre).
  rewrite (bus_loop_floats g c m 0 pre) by assumption.
  cbn [enumerate for_each]. unfold Receiver.degrees_to_pulse at 1.
  rewrite Hbad. cbn. now rewrite app_nil_r.
Qed.





Lemma outcome_bind_eq {A B} (m : eff A) (f : A -> eff B) :
  outcome (bind m f)
  = match outcome m with Ok a => outcome (f a) | Raise e => Raise e end.
Proof.
  destruct m as [t [a|e]]; cbn; [|reflexivity]. now destruct (f a).
Qed.

(** [do_POST] on a dense request, from the three parts of its [try]. *)
Lemma Receiver_do_POST_dense g last now req d ds :
  carries_dense req d ds ->
  exists n,
    Receiver.do_POST g last now req
    = match outcome (bus_loop g 0 ds ;;; Receiver.apply_head g (head_of d) ;;;
                     debug_output last now ds) with
      | Ok _ =>
          (EvRead n :: trace (bus_loop g 0 ds ;;; Receiver.apply_head g (head_of d) ;;;
                              debug_output last now ds),
           Http.no_content)
      | Raise e =>
          (EvRead n :: trace (bus_loop g 0 ds ;;; Receiver.apply_head g (head_of d) ;;;
                              debug_output last now ds)
             ++ [EvPrint (LogError e)],
           Http.bad_request e)
      end.
Proof.
  intro H. pose proof H as (Hp & (n & Hn & _) & _).
  exists n. unfold Receiver.do_POST. rewrite Hp, String.eqb_refl. cbn [negb].
  rewrite (Receiver_do_POST_try_dense g last now req d ds n H Hn).
  destruct (bus_loop g 0 ds ;;; _) as [t [u|e]]; reflexivity.
Qed.


(** X8.  servo_reciever.py converts the entries of "degrees" one at a time
    inside the loop that moves the servos.  When the entries before the index
    k are accepted by [float] and the entry at k is not, the servos 1 to k
    have already been called when the exception is raised: the request is
    answered 400 and exactly k driver calls have been made. *)
Theorem dense_command_partly_applied g c m last now req d pre bad post e :
  Receiver.ROBOT_AVAILABLE g = true -> Receiver.controller g = Some c ->
  bus_method (Some c) = Some m ->
  carries_dense req d (pre ++ bad :: post) ->
  (forall v, In v pre -> float_ok v) ->
  py_float bad = Raise e ->
  snd (Receiver.do_POST g last now req) = Http.bad_request e /\
  drv_calls (fst (Receiver.do_POST g last now req))
  = map (fun x => EvDrv m (fst x + 1) (pulse_of (snd x)) 80) (enumerate 0 pre) /\
  List.length (drv_calls (fst (Receiver.do_POST g last now req))) = List.length pre.
Proof.
  intros Hav Hc Hm Hd Hpre Hbad.
  destruct (Receiver_do_POST_dense g last now req d _ Hd) as (n & ->).
  rewrite !outcome_bind_eq, !trace_bind.
  rewrite (bus_loop_stops g c m pre bad post e Hav Hc Hm Hpre Hbad).
  cbn [outcome trace fst snd drv_calls filter is_drv].
  change (filter is_drv ?l) with (drv_calls l).
  assert (E : drv_calls ((flat_map (bus_events c m) (enumerate 0 pre) ++ [])
                           ++ [EvPrint (LogError e)])
              = map (fun x => EvDrv m (fst x + 1) (pulse_of (snd x)) 80)
                    (enumerate 0 pre)).
  { rewrite !drv_calls_app, drv_calls_bus_events. cbn. now rewrite !app_nil_r. }
  split; [reflexivity|]. split; [exact E|].
  rewrite E, length_map.
  clear. generalize 0. induction pre as [|x pre IH]; intro s; cbn; auto.
Qed.

(** X9.  servo_reciever.py computes [round(d)] of the first four entries
    for its debug line after the command has been applied.  When [float]
    accepts every entry but [round] raises on one of the first four (a NaN, a
    string that holds a number), the sixteen servos are called all the same,
    and the answer depends on the clock: 204 when the debug line is not due,
    400 when it is. *)
Theorem dense_status_depends_on_clock g c m last now req d ds e :
  Receiver.ROBOT_AVAILABLE g = true -> Receiver.controller g = Some c ->
  bus_method (Some c) = Some m ->
  carries_dense req d ds ->
  (forall v, In v ds -> float_ok v) ->
  outcome (Receiver.apply_head g (head_of d)) = Ok tt ->
  Receiver.map_result py_round (firstn 4 ds) = Raise e ->
  ((now - last <= 1)%Q -> snd (Receiver.do_POST g last now req) = Http.no_content) /\
  ((1 < now - last)%Q -> snd (Receiver.do_POST g last now req) = Http.bad_request e) /\
  drv_calls (fst (Receiver.do_POST g last now req))
  = map (fun x => EvDrv m (fst x + 1) (pulse_of (snd x)) 80) (enumerate 0 ds)
    ++ drv_calls (trace (Receiver.apply_head g (head_of d))).
Proof.
  intros Hav Hc Hm Hd Hf Hhead Hround.
  destruct (Receiver_do_POST_dense g last now req d ds Hd) as (n & ->).
  rewrite !outcome_bind_eq, !trace_bind.
  rewrite (bus_loop_floats g c m 0 ds Hav Hc Hm Hf). cbn [outcome trace fst snd].
  rewrite Hhead.
  pose proof (debug_output_quiet last now ds) as Dq.
  fold (debug_output last now ds) in Dq.
  assert (Do : outcome (debug_output last now ds)
               = if negb (Qle_bool (now - last) 1) then Raise e else Ok tt).
  { unfold debug_output. destruct (negb (Qle_bool (now - last) 1)); [|reflexivity].
    rewrite Hround. reflexivity. }
  rewrite Do.
  destruct (Qle_bool_spec (now - last) 1) as [L|L]; cbn [negb fst snd];
    (split; [|split]); try (intro; lra); try reflexivity;
    cbn [drv_calls filter is_drv]; change (filter is_drv ?l) with (drv_calls l);
    rewrite !drv_calls_app, Dq, ?app_nil_r, drv_calls_bus_events;
    cbn; now rewrite ?app_nil_r.
Qed.


Lemma dense_command_partly_applied_witness :
  snd (Receiver.do_POST (Sample.with_controller Sample.hiwonder_board) 0 0
         (Sample.post
            (Sample.dense (repeat (VInt 90) 3 ++ VNone :: repeat (VInt 90) 12))))
  = Http.bad_request TypeError /\
  drv_calls
    (fst (Receiver.do_POST (Sample.with_controller Sample.hiwonder_board) 0 0
            (Sample.post
               (Sample.dense (repeat (VInt 90) 3 ++ VNone :: repeat (VInt 90) 12)))))
  = map (fun x => EvDrv setBusServoPulse (fst x + 1) (pulse_of (snd x)) 80)
        (enumerate 0 (repeat (VInt 90) 3)) /\
  List.length
    (drv_calls
       (fst (Receiver.do_POST (Sample.with_controller Sample.hiwonder_board) 0 0
               (Sample.post
                  (Sample.dense
                     (repeat (VInt 90) 3 ++ VNone :: repeat (VInt 90) 12))))))
  = List.length (repeat (VInt 90) 3).
Proof.
  apply (dense_command_partly_applied
           (Sample.with_controller Sample.hiwonder_board)
           Sample.hiwonder_board setBusServoPulse 0 0 _
           [(lit "kind", VStr (lit "humanoid16"));
            (lit "degrees",
             VList (repeat (VInt 90) 3 ++ VNone :: repeat (VInt 90) 12))]
           (repeat (VInt 90) 3) VNone (repeat (VInt 90) 12) TypeError);
    try reflexivity.
  - repeat split. exists 200. split; [reflexivity | discriminate].
  - intros v Hin. apply repeat_spec in Hin. subst v. eexists. reflexivity.
Defined.

Lemma dense_status_depends_on_clock_witness :
  snd (Receiver.do_POST (Sample.with_controller Sample.hiwonder_controller)
         1000 (1000 + (1 # 2))
         (Sample.post (Sample.dense (VFloat NaN :: repeat (VInt 90) 15))))
  = Http.no_content /\
  snd (Receiver.do_POST (Sample.with_controller Sample.hiwonder_controller)
         1000 1002
         (Sample.post (Sample.dense (VFloat NaN :: repeat (VInt 90) 15))))
  = Http.bad_request ValueError.
Proof.
  assert (D : carries_dense
                (Sample.post (Sample.dense (VFloat NaN :: repeat (VInt 90) 15)))
                [(lit "kind", VStr (lit "humanoid16"));
                 (lit "degrees", VList (VFloat NaN :: repeat (VInt 90) 15))]
                (VFloat NaN :: repeat (VInt 90) 15)).
  { repeat split. exists 200. split; [reflexivity | discriminate]. }
  assert (F : forall v, In v (VFloat NaN :: repeat (VInt 90) 15) -> float_ok v).
  { intros v [<-|Hin]; [eexists; reflexivity|].
    apply repeat_spec in Hin. subst v. eexists. reflexivity. }
  split.
  - apply (proj1 (dense_status_depends_on_clock
                    (Sample.with_controller Sample.hiwonder_controller)
                    Sample.hiwonder_controller set_bus_servo_pulse
                    1000 (1000 + (1 # 2)) _ _ _ ValueError
                    eq_refl eq_refl eq_refl D F eq_refl eq_refl)).
    vm_compute. discriminate.
  - apply (proj1 (proj2 (dense_status_depends_on_clock
                    (Sample.with_controller Sample.hiwonder_controller)
                    Sample.hiwonder_controller set_bus_servo_pulse
                    1000 1002 _ _ _ ValueError
                    eq_refl eq_refl eq_refl D F eq_refl eq_refl))).
    reflexivity.
Defined.

End Dense.

(** ** The answers of the two HTTP servers *)

Section Responses.

Lemma well_formed_no_content : well_formed_response Http.no_content.
Proof. split; [apply incl_refl | now left]. Qed.

Lemma well_formed_not_found : well_formed_response Http.not_found.
Proof. split; [apply incl_refl | right; now left]. Qed.

Lemma well_formed_bad_request e : well_formed_response (Http.bad_request e).
Proof.
  split; [apply incl_appl, incl_refl | right; right; eauto].
Qed.

(** X10.  Every answer of [do_POST], in servo_reciever.py and in
    tonypi_servo_server.py, carries the three CORS headers and is one of
    three: 204 without a body, 404 without a body, or 400 with the error as
    JSON.  A POST to a path other than /servo is answered 404 and nothing
    else happens: nothing is read, no driver call is made and, in
    tonypi_servo_server.py, the rate limit is not consulted (its [Handler]
    needs none of its attributes). *)
Theorem http_answers :
  (forall g last now req,
     well_formed_response (snd (Receiver.do_POST g last now req))) /\
  (forall self now req r,
     outcome (snd (TonyPi.do_POST self now req)) = Ok r -> well_formed_response r) /\
  (forall g last now req,
     Http.path req <> "/servo"%string ->
     Receiver.do_POST g last now req = ([], Http.not_found)) /\
  (forall ctrl a now req,
     Http.path req <> "/servo"%string ->
     snd (TonyPi.handler_factory ctrl a now req) = ([], Ok Http.not_found)) /\
  well_formed_response Receiver.do_OPTIONS /\
  well_formed_response TonyPi.do_OPTIONS.
Proof.
  split; [|split; [|split; [|split; [|split]]]].
  - intros g last now req. unfold Receiver.do_POST.
    destruct (negb _); [apply well_formed_not_found|].
    destruct (Receiver.do_POST_try g last now req) as [t [u|e]]; cbn [snd];
      [apply well_formed_no_content | apply well_formed_bad_request].
  - intros self now req r. unfold TonyPi.do_POST.
    destruct (negb _); cbn [snd].
    { intros [= <-]. apply well_formed_not_found. }
    destruct (TonyPi.last_at self); [|discriminate].
    destruct (TonyPi.min_interval_s self); [|discriminate].
    destruct (Qltb _ _); cbn [snd].
    { intros [= <-]. apply well_formed_no_content. }
    destruct (TonyPi.do_POST_try _ req) as [t [r'|e]] eqn:E; cbn.
    + intros [= <-].
      rewrite (TonyPi_success_is_204 _ req r' (f_equal snd E)).
      apply well_formed_no_content.
    + intros [= <-]. apply well_formed_bad_request.
  - intros g last now req H. unfold Receiver.do_POST.
    apply String.eqb_neq in H. now rewrite H.
  - intros ctrl a now req H. unfold TonyPi.handler_factory, TonyPi.Handler_init,
      TonyPi.do_POST.
    apply String.eqb_neq in H. now rewrite H.
  - apply well_formed_no_content.
  - apply well_formed_no_content.
Qed.

Lemma http_answers_witness :
  snd (TonyPi.handler_factory (Sample.tonypi Sample.hiwonder_controller)
         Sample.args 1000 (Http.Request "/" (Ok 0) (Ok VNone)))
  = ([], Ok Http.not_found).
Proof.
  apply (proj1 (proj2 (proj2 (proj2 http_answers)))). discriminate.
Defined.

End Responses.

(** ** Validation in tonypi_servo_server.py *)

Section TonyPiValidation.

Lemma map_result_length {A B} (f : A -> result B) (xs : list A) (ys : list B) :
  Receiver.map_result f xs = Ok ys -> List.length ys = List.length xs.
Proof.
  revert ys. induction xs as [|x xs IH]; intros ys; cbn [Receiver.map_result].
  - now intros [= <-].
  - destruct (f x); [|discriminate].
    destruct (Receiver.map_result f xs) as [zs|]; [|discriminate].
    intros [= <-]. cbn. f_equal. now apply IH.
Qed.

Lemma map_result_fails {A B} (f : A -> result B) (xs : list A) (x : A) :
  In x xs -> (forall y, f x <> Ok y) -> exists e, Receiver.map_result f xs = Raise e.
Proof.
  intros Hin Hx. induction xs as [|a xs IH]; [destruct Hin|].
  cbn [Receiver.map_result]. destruct Hin as [->|Hin].
  - destruct (f x) as [y|e]; [now contradiction (Hx y) | eauto].
  - destruct (f a); [|eauto]. destruct (IH Hin) as (e & ->). eauto.
Qed.

Lemma parse_payload_inv loaded degrees head :
  TonyPi.parse_payload loaded = Ok (degrees, head) ->
  exists d ds,
    loaded = Ok (VDict d) /\ dense_shape (VDict d) = true /\
    dict_get d "degrees" = Some (VList ds) /\
    Receiver.map_result py_float ds = Ok degrees /\
    (head <> None ->
     exists h p1 p2, dict_get d "head" = Some (VDict h) /\
                     dict_get h "p1" = Some p1 /\ dict_get h "p2" = Some p2).
Proof.
  unfold TonyPi.parse_payload.
  destruct loaded as [[| | | | | |d]|]; try discriminate.
  cbn [py_get].
  destruct (dict_get d "kind") as [k|] eqn:K; cbn [is_str]; [|discriminate].
  destruct (is_str k "humanoid16") eqn:S; cbn [negb]; [|discriminate].
  destruct (dict_get d "degrees") as [[| | | | |ds|]|] eqn:Dg; try discriminate.
  destruct (Nat.eqb (List.length ds) 16) eqn:L; cbn [negb]; [|discriminate].
  destruct (Receiver.map_result py_float ds) as [fs|] eqn:M; [|discriminate].
  intro H. exists d, ds.
  split; [reflexivity|].
  split; [cbn [dense_shape]; now rewrite K, S, Dg, L|].
  split; [exact Dg|].
  destruct (dict_get d "head") as [[| | | | | |h]|] eqn:Hd;
    try (injection H as <- <-; split; [exact M | intro C; now contradiction C]).
  destruct (dict_get h "p1") as [p1|] eqn:P1;
    [|injection H as <- <-; split; [exact M | intro C; now contradiction C]].
  destruct (dict_get h "p2") as [p2|] eqn:P2;
    [|injection H as <- <-; split; [exact M | intro C; now contradiction C]].
  destruct (py_float p1); [|discriminate].
  destruct (py_float p2); [|discriminate].
  injection H as <- <-. split; [exact M|]. intros _. eauto 6.
Qed.

(** X11.  tonypi_servo_server.py validates a command whole before it moves a
    servo.  [parse_payload] returns only for an object of the dense shape,
    with exactly sixteen floats, and with a head only when both "p1" and "p2"
    are present; one entry that [float] rejects makes it raise.  When it
    raises, [do_POST] has read the body at most and made no driver call. *)
Theorem tonypi_validates_before_dispatch :
  (forall loaded degrees head,
     TonyPi.parse_payload loaded = Ok (degrees, head) ->
     List.length degrees = 16%nat /\
     exists d, loaded = Ok (VDict d) /\ dense_shape (VDict d) = true /\
               (head <> None ->
                exists h p1 p2, dict_get d "head" = Some (VDict h) /\
                                dict_get h "p1" = Some p1 /\
                                dict_get h "p2" = Some p2)) /\
  (forall d ds bad,
     dict_get d "degrees" = Some (VList ds) -> In bad ds ->
     (forall f, py_float bad <> Ok f) ->
     exists e, TonyPi.parse_payload (Ok (VDict d)) = Raise e) /\
  (forall self req n e,
     Http.content_length req = Ok n ->
     TonyPi.parse_payload (if 0 <? n then Http.payload req else Ok (VDict []))
     = Raise e ->
     TonyPi.do_POST_try self req
     = ((if 0 <? n then [EvRead n] else []), Raise e)).
Proof.
  split; [|split].
  - intros loaded degrees head H.
    destruct (parse_payload_inv _ _ _ H) as (d & ds & -> & Hs & Hd & Hm & Hh).
    split; [|eauto].
    rewrite (map_result_length _ _ _ Hm).
    cbn [dense_shape] in Hs. rewrite Hd in Hs.
    apply andb_true_iff in Hs. now apply Nat.eqb_eq.
  - intros d ds bad Hd Hin Hbad.
    destruct (TonyPi.parse_payload (Ok (VDict d))) as [[degrees head]|e] eqn:E;
      [|eauto].
    destruct (parse_payload_inv _ _ _ E) as (d' & ds' & [= <-] & _ & Hd' & Hm & _).
    rewrite Hd in Hd'. injection Hd' as <-.
    destruct (map_result_fails py_float ds bad Hin Hbad) as (e & He).
    congruence.
  - intros self req n e Hn Hp. unfold TonyPi.do_POST_try. rewrite Hn.
    cbn [lift bind app]. destruct (0 <? n); cbn [emit ret lift bind app];
      rewrite Hp; reflexivity.
Qed.

Lemma tonypi_validates_before_dispatch_witness :
  TonyPi.do_POST_try
    (TonyPi.configure (Sample.tonypi Sample.hiwonder_controller) Sample.args
       TonyPi.new_handler)
    (Sample.post (Sample.dense (repeat (VInt 90) 15 ++ [VNone])))
  = ([EvRead 200], Raise TypeError).
Proof.
  apply (proj2 (proj2 tonypi_validates_before_dispatch) _ _ 200 TypeError);
    reflexivity.
Defined.

End TonyPiValidation.

(** ** Frames on the streaming receiver, and the head *)

Section Frames.

(** X12.  servo_receiver_ws.py handles the frames of a connection one after
    another, in the order received: when the turn for a frame ends normally,
    its effects come first and the rest of the connection goes as it would
    have gone without that frame; when the turn raises, its effects are
    followed by the log line and the end of the handler. *)
Theorem frames_processed_in_order g x rest :
  (outcome (ReceiverWs.on_message g x) = Ok tt ->
   ReceiverWs.handler g (x :: rest)
   = EvPrint LogClientConnected
       :: trace (ReceiverWs.on_message g x) ++ tl (ReceiverWs.handler g rest)) /\
  (forall e,
     outcome (ReceiverWs.on_message g x) = Raise e ->
     ReceiverWs.handler g (x :: rest)
     = EvPrint LogClientConnected
         :: trace (ReceiverWs.on_message g x)
         ++ [EvPrint (LogError e); EvPrint LogClientDisconnected]).
Proof.
  unfold ReceiverWs.handler. cbn [for_each].
  destruct (ReceiverWs.on_message g x) as [t [[]|e']]; cbn [outcome snd]; split;
    try discriminate.
  - intros _. destruct (for_each rest (ReceiverWs.on_message g)) as [t' [[]|e]];
      cbn; now rewrite <- ?app_assoc.
  - intros e [= <-]. cbn. now rewrite <- ?app_assoc.
Qed.

Lemma ReceiverWs_set_bus_servo_trace g c m a v t :
  Receiver.ROBOT_AVAILABLE g = true -> Receiver.controller g = Some c ->
  bus_method (Some c) = Some m ->
  ReceiverWs.set_bus_servo g a v t
  = ([EvDrv m a (clamp v 0 1000) (py_max 0 t)],
     match raises c m a (clamp v 0 1000) (py_max 0 t) with
     | Some e => Raise e
     | None => Ok tt
     end).
Proof.
  intros Hav Hc Hm. destruct (bus_method_has _ _ Hm) as (o & [= <-] & Hhas & Hbus).
  unfold ReceiverWs.set_bus_servo, ReceiverWs.ROBOT_AVAILABLE, ReceiverWs.controller.
  rewrite Hav, Hc. cbn [negb]. unfold bus_method in Hm.
  destruct (hasattr (Some c) set_bus_servo_pulse) eqn:E1.
  - injection Hm as <-. unfold call, drv_call. rewrite Hhas. cbn.
    destruct (raises c _ _ _ _); reflexivity.
  - destruct (hasattr (Some c) setBusServoPulse) eqn:E2; [|discriminate].
    injection Hm as <-. unfold call, drv_call. rewrite Hhas. cbn.
    destruct (raises c _ _ _ _); reflexivity.
Qed.

Lemma ReceiverWs_on_message_sparse g d sv :
  is_sparse (VDict d) = true ->
  dict_get d "servos" = Some (VDict sv) ->
  dict_get d "head" = None ->
  ReceiverWs.on_message g (Ok (VDict d))
  = for_each sv
      (fun '(sid, pulse) =>
         i <- lift (py_int (VStr sid)) ;;
         p <- lift (py_int pulse) ;;
         ReceiverWs.set_bus_servo g i p 80).
Proof.
  intros Hs Hsv Hh. unfold ReceiverWs.on_message.
  rewrite bind_lift_Ok. cbn [py_get]. rewrite bind_lift_Ok.
  cbn [is_sparse] in Hs.
  destruct (dict_get d "type") as [ty|]; [|discriminate]. rewrite Hs.
  rewrite Hsv, bind_lift_Ok, Hh.
  destruct (for_each sv _) as [t [[]|e]]; cbn; now rewrite ?app_nil_r.
Qed.


Lemma sparse_loop g c m sv :
  Receiver.ROBOT_AVAILABLE g = true -> Receiver.controller g = Some c ->
  bus_method (Some c) = Some m ->
  (forall a v t, raises c m a v t = None) ->
  Forall sparse_entry_ok sv ->
  for_each sv
    (fun '(sid, pulse) =>
       i <- lift (py_int (VStr sid)) ;;
       p <- lift (py_int pulse) ;;
       ReceiverWs.set_bus_servo g i p 80)
  = (map (sparse_call m) sv, Ok tt).
Proof.
  intros Hav Hc Hm Hr Hok.
  rewrite (for_each_traces _ _ (fun x => [sparse_call m x])).
  - f_equal; induction sv; cbn; congruence.
  - intros [sid pulse] Hin. rewrite Forall_forall in Hok.
    destruct (Hok _ Hin) as (Hk & z & Hz). cbn [fst snd] in Hk, Hz.
    cbn [py_int]. unfold sparse_call, key_int, val_int. cbn [fst snd].
    destruct (int_of sid) as [i|]; [|now contradiction Hk].
    rewrite Hz, !bind_lift_Ok.
    rewrite (ReceiverWs_set_bus_servo_trace g c m) by assumption.
    now rewrite Hr.
Qed.

(** X13.  servo_receiver_ws.py with a backend whose calls succeed: a sparse
    frame (type "servos") whose "servos" object has keys and values that
    [int] accepts, and no head, makes one bus call for each entry, in the
    order of the object, for the identifier [int(key)] with the pulse
    [int(value)] clamped to [0,1000] and a duration of 80 ms.  The pulse is
    not converted from degrees. *)
Theorem sparse_command_applied g c m d sv :
  Receiver.ROBOT_AVAILABLE g = true -> Receiver.controller g = Some c ->
  bus_method (Some c) = Some m ->
  (forall a v t, raises c m a v t = None) ->
  is_sparse (VDict d) = true ->
  dict_get d "servos" = Some (VDict sv) ->
  dict_get d "head" = None ->
  Forall sparse_entry_ok sv ->
  ReceiverWs.on_message g (Ok (VDict d)) = (map (sparse_call m) sv, Ok tt).
Proof.
  intros Hav Hc Hm Hr Hs Hsv Hh Hok.
  rewrite (ReceiverWs_on_message_sparse g d sv Hs Hsv Hh).
  now apply (sparse_loop g c m).
Qed.

(** X14.  From the client to the servo: whatever angle is typed,
    [send_servo_command] sends a sparse frame whose pulse lies in [55,944],
    and servo_receiver_ws.py with a backend present answers that frame with
    exactly one driver call, for that servo and with that pulse unchanged, in
    80 ms (the duration given to the client is not sent). *)
Theorem client_command_reaches_servo g c m key id degrees :
  Receiver.ROBOT_AVAILABLE g = true -> Receiver.controller g = Some c ->
  bus_method (Some c) = Some m ->
  int_of key = Some id ->
  exists p,
    55 <= p <= 944 /\
    Client.degrees_to_pulse degrees = Ok p /\
    trace (Client.send_servo_command key degrees)
    = [EvSend (servo_frame key p); EvPrint LogSent] /\
    drv_calls (trace (ReceiverWs.on_message g (Ok (servo_frame key p))))
    = [EvDrv m id p 80].
Proof.
  intros Hav Hc Hm Hk.
  destruct (client_pulse_range degrees) as (p & Ep & B).
  exists p. split; [exact B|]. split; [exact Ep|]. split.
  - unfold Client.send_servo_command. rewrite Ep. reflexivity.
  - unfold servo_frame.
    rewrite (ReceiverWs_on_message_sparse g _ [(key, VInt p)]); try reflexivity.
    cbn [for_each py_int]. rewrite Hk, !bind_lift_Ok.
    rewrite (ReceiverWs_set_bus_servo_trace g c m) by assumption.
    rewrite clamp_id_Z by lia.
    destruct (raises c m id p _); reflexivity.
Qed.





Lemma frames_processed_in_order_witness :
  ReceiverWs.handler (Sample.with_controller Sample.hiwonder_controller)
    [Ok Sample.neutral; Ok Sample.neutral]
  = EvPrint LogClientConnected
      :: trace (ReceiverWs.on_message
                  (Sample.with_controller Sample.hiwonder_controller)
                  (Ok Sample.neutral))
      ++ tl (ReceiverWs.handler (Sample.with_controller Sample.hiwonder_controller)
               [Ok Sample.neutral]).
Proof.
  apply (proj1 (frames_processed_in_order
                  (Sample.with_controller Sample.hiwonder_controller)
                  (Ok Sample.neutral) [Ok Sample.neutral])).
  reflexivity.
Defined.

Lemma sparse_command_applied_witness :
  ReceiverWs.on_message (Sample.with_controller Sample.hiwonder_board)
    (Ok (VDict [(lit "type", VStr (lit "servos"));
                (lit "servos",
                 VDict [(Str "3" (Some (Fin 3)) (Some 3), VInt 5000);
                        (Str "7" (Some (Fin 7)) (Some 7), VFloat (Fin (999 # 2)))])]))
  = ([EvDrv setBusServoPulse 3 1000 80; EvDrv setBusServoPulse 7 499 80], Ok tt).
Proof.
  apply (sparse_command_applied (Sample.with_controller Sample.hiwonder_board)
           Sample.hiwonder_board setBusServoPulse _
           [(Str "3" (Some (Fin 3)) (Some 3), VInt 5000);
            (Str "7" (Some (Fin 7)) (Some 7), VFloat (Fin (999 # 2)))]);
    try reflexivity.
  repeat constructor; cbn; try discriminate; eexists; reflexivity.
Defined.

Lemma client_command_reaches_servo_witness :
  exists p,
    55 <= p <= 944 /\
    Client.degrees_to_pulse (Fin 0) = Ok p /\
    trace (Client.send_servo_command (Str "7" (Some (Fin 7)) (Some 7)) (Fin 0))
    = [EvSend (servo_frame (Str "7" (Some (Fin 7)) (Some 7)) p); EvPrint LogSent] /\
    drv_calls
      (trace (ReceiverWs.on_message
                (Sample.with_controller (Sample.faulty_controller 7))
                (Ok (servo_frame (Str "7" (Some (Fin 7)) (Some 7)) p))))
    = [EvDrv set_bus_servo_pulse 7 p 80].
Proof.
  apply (client_command_reaches_servo
           (Sample.with_controller (Sample.faulty_controller 7))
           (Sample.faulty_controller 7)); reflexivity.
Defined.


End Frames.

(** ** The client's conversions, back and forth *)

Section RoundTrip.
Local Open Scope Q_scope.

Lemma round_half_even_near (q : Q) :
  q - (1 # 2) <= inject_Z (round_half_even q) <= q + (1 # 2).
Proof.
  pose proof (Qfloor_frac q) as F. unfold round_half_even.
  destruct (Qcompare_spec (q - inject_Z (Qfloor q)) (1 # 2)) as [E|L|G].
  - destruct (Z.even (Qfloor q)).
    + lra.
    + rewrite inject_Z_plus. change (inject_Z 1) with 1. lra.
  - lra.
  - rewrite inject_Z_plus. change (inject_Z 1) with 1. lra.
Qed.

Lemma pulse_to_degrees_value (p : Z) :
  Client.pulse_to_degrees p
  = Fin (inject_Z (round_half_even (inject_Z p / 1000 * 180 * 10)) / 10).
Proof. reflexivity. Qed.

(** X16.  The client's two conversions nearly undo each other.  For a pulse
    p between 56 and 944, [pulse_to_degrees] returns the angle p * 0.18 to
    within 0.05 degrees, and [degrees_to_pulse] of that angle is p or p - 1:
    the rounding to one decimal and the truncation can lose one pulse, never
    more. *)
Theorem pulse_degrees_round_trip (p : Z) :
  (56 <= p <= 944)%Z ->
  exists d p',
    Client.pulse_to_degrees p = Fin d /\
    inject_Z p * (9 # 50) - (1 # 20) <= d <= inject_Z p * (9 # 50) + (1 # 20) /\
    Client.degrees_to_pulse (Fin d) = Ok p' /\
    (p - 1 <= p' <= p)%Z.
Proof.
  intros [Hlo Hhi].
  set (x := inject_Z p / 1000 * 180 * 10).
  assert (Ex : x == inject_Z p * (9 # 5)) by (unfold x; field).
  set (r := inject_Z (round_half_even x)).
  exists (r / 10). eexists. split; [reflexivity|].
  pose proof (round_half_even_near x) as N. fold r in N.
  assert (Bp : 56 <= inject_Z p <= 944).
  { split; [change 56 with (inject_Z 56) | change 944 with (inject_Z 944)];
      rewrite <- Zle_Qle; assumption. }
  assert (Br : 101 <= r <= 1699).
  { unfold r. split.
    - change 101 with (inject_Z 101). rewrite <- Zle_Qle.
      change 101%Z with (round_half_even (504 # 5)).
      apply round_half_even_le. rewrite Ex. lra.
    - change 1699 with (inject_Z 1699). rewrite <- Zle_Qle.
      change 1699%Z with (round_half_even (8496 # 5)).
      apply round_half_even_le. rewrite Ex. lra. }
  clearbody r. clearbody x.
  assert (Ed : r / 10 == r * (1 # 10)) by field.
  assert (Ey : r / 10 / 180 * 1000 == r * (5 # 9)) by field.
  split; [rewrite Ed; lra|].
  split; [apply client_pulse_inside; rewrite Ed; lra|].
  rewrite Qtrunc_floor by (rewrite Ey; lra).
  split.
  - rewrite <- (Qfloor_Z (p - 1)). apply Qfloor_resp_le.
    rewrite Ey. replace (p - 1)%Z with (p + (-1))%Z by lia.
    rewrite inject_Z_plus. change (inject_Z (-1)) with (-1). lra.
  - apply Z.lt_succ_r. rewrite Zlt_Qlt.
    eapply Qle_lt_trans; [apply Qfloor_le|].
    rewrite Ey. unfold Z.succ. rewrite inject_Z_plus.
    change (inject_Z 1) with 1. lra.
Qed.

Lemma pulse_degrees_round_trip_witness :
  exists d p',
    Client.pulse_to_degrees 503 = Fin d /\
    inject_Z 503 * (9 # 50) - (1 # 20) <= d <= inject_Z 503 * (9 # 50) + (1 # 20) /\
    Client.degrees_to_pulse (Fin d) = Ok p' /\
    (503 - 1 <= p' <= 503)%Z.
Proof. apply (pulse_degrees_round_trip 503). lia. Defined.

End RoundTrip.

(** ** The interval of the rate limit *)

Section Interval.
Local Open Scope Q_scope.



End Interval.

(** ** The two receivers on one command *)

Section Agreement.

Lemma set_bus_servo_agree g a v t :
  never_raises g ->
  Receiver.set_bus_servo g a v t = ReceiverWs.set_bus_servo g a v t.
Proof.
  intro H. unfold Receiver.set_bus_servo, ReceiverWs.set_bus_servo,
    ReceiverWs.ROBOT_AVAILABLE, ReceiverWs.controller, call, hasattr.
  destruct (Receiver.ROBOT_AVAILABLE g); [|reflexivity]. cbn [negb].
  destruct (Receiver.controller g) as [c|] eqn:E; [|reflexivity].
  destruct (has c set_bus_servo_pulse).
  - unfold drv_call. rewrite (H c E). reflexivity.
  - destruct (has c setBusServoPulse); [|reflexivity].
    unfold drv_call. rewrite (H c E). reflexivity.
Qed.

Lemma set_pwm_servo_agree g a v t :
  never_raises g ->
  Receiver.set_pwm_servo g a v t = ReceiverWs.set_pwm_servo g a v t.
Proof.
  intro H. unfold Receiver.set_pwm_servo, ReceiverWs.set_pwm_servo,
    ReceiverWs.ROBOT_AVAILABLE, ReceiverWs.controller, call, hasattr.
  destruct (Receiver.ROBOT_AVAILABLE g); [|reflexivity]. cbn [negb].
  destruct (Receiver.controller g) as [c|] eqn:E; [|reflexivity].
  destruct (has c set_pwm_servo_pulse).
  - unfold drv_call. rewrite (H c E). reflexivity.
  - destruct (has c setPWMServoPulse); [|reflexivity].
    unfold drv_call. rewrite (H c E). reflexivity.
Qed.

Lemma for_each_ext {A} (xs : list A) (f f' : A -> eff unit) :
  (forall x, f x = f' x) -> for_each xs f = for_each xs f'.
Proof.
  intro H. induction xs as [|x xs IH]; cbn [for_each]; [reflexivity|].
  now rewrite H, IH.
Qed.

Lemma bind_ext {A B} (m : eff A) (f f' : A -> eff B) :
  (forall a, f a = f' a) -> bind m f = bind m f'.
Proof. intro H. destruct m as [t [a|e]]; cbn; [now rewrite H | reflexivity]. Qed.

Lemma head_agree g head :
  never_raises g -> Receiver.apply_head g head = ReceiverWs.dense_head g head.
Proof.
  intro H.
  assert (P : forall v ch,
             (us <- Receiver.degrees_to_pwm_us v ;; Receiver.set_pwm_servo g ch us 80)
             = (us <- ReceiverWs.degrees_to_pwm_us v ;;
                ReceiverWs.set_pwm_servo g ch us 80)).
  { intros. apply bind_ext. intros. now apply set_pwm_servo_agree. }
  unfold Receiver.apply_head, ReceiverWs.dense_head.
  destruct head; try reflexivity.
  destruct (dict_get d "p1") as [v1|], (dict_get d "p2") as [v2|];
    rewrite ?P; reflexivity.
Qed.

Lemma bus_loop_agree g ds :
  never_raises g ->
  bus_loop g 0 ds
  = for_each (enumerate 0 ds)
      (fun '(i, deg) =>
         pulse <- ReceiverWs.degrees_to_pulse deg ;;
         ReceiverWs.set_bus_servo g (i + 1) pulse 80).
Proof.
  intro H. unfold bus_loop. apply for_each_ext. intros [i deg].
  apply bind_ext. intros. now apply set_bus_servo_agree.
Qed.

Lemma ReceiverWs_on_message_dense g d ds :
  is_sparse (VDict d) = false -> dense_shape (VDict d) = true ->
  dict_get d "degrees" = Some (VList ds) ->
  ReceiverWs.on_message g (Ok (VDict d))
  = (for_each (enumerate 0 ds)
       (fun '(i, deg) =>
          pulse <- ReceiverWs.degrees_to_pulse deg ;;
          ReceiverWs.set_bus_servo g (i + 1) pulse 80) ;;;
     ReceiverWs.dense_head g (head_of d)).
Proof.
  intros Hs Hshape Hds.
  destruct (dense_shape_inv d ds Hshape Hds) as ((k & Hk & Hstr) & Hlen).
  unfold ReceiverWs.on_message. rewrite bind_lift_Ok. cbn [py_get].
  rewrite bind_lift_Ok. cbn [is_sparse] in Hs.
  assert (E : is_str (match dict_get d "type" with Some v => v | None => VNone end)
                "servos" = false).
  { destruct (dict_get d "type"); [exact Hs | reflexivity]. }
  rewrite E, Hk, bind_lift_Ok, Hstr. cbn [negb].
  rewrite Hds, bind_lift_Ok, Hlen. cbn [Nat.eqb negb].
  apply bind_then_congr. rewrite bind_lift_Ok. reflexivity.
Qed.

(** X18.  The two receivers command the hardware alike.  When no driver
    call raises, a dense command of the expected shape makes
    servo_receiver_ws.py (as a frame) and servo_reciever.py (as the body of a
    POST to /servo) issue the same driver calls in the same order, entries
    that [float] rejects included: both stop at the first such entry. *)
Theorem receivers_agree_on_dense g last now req d ds :
  never_raises g ->
  carries_dense req d ds -> is_sparse (VDict d) = false ->
  drv_calls (trace (ReceiverWs.on_message g (Ok (VDict d))))
  = drv_calls (fst (Receiver.do_POST g last now req)) /\
  (outcome (ReceiverWs.on_message g (Ok (VDict d))) = Ok tt ->
   (now - last <= 1)%Q ->
   snd (Receiver.do_POST g last now req) = Http.no_content).
Proof.
  intros Hnr Hd Hs. pose proof Hd as (_ & _ & _ & Hshape & Hds).
  rewrite (ReceiverWs_on_message_dense g d ds Hs Hshape Hds).
  rewrite <- (bus_loop_agree g ds Hnr), <- (head_agree g _ Hnr).
  destruct (Receiver_do_POST_dense g last now req d ds Hd) as (n & ->).
  pose proof (debug_output_quiet last now ds) as Dq.
  fold (debug_output last now ds) in Dq.
  rewrite !outcome_bind_eq, !trace_bind.
  destruct (bus_loop g 0 ds) as [t1 [[]|e1]]; cbn [outcome trace fst snd].
  2:{ split; [|discriminate].
      cbn [drv_calls filter is_drv]. change (filter is_drv ?l) with (drv_calls l).
      rewrite !drv_calls_app. cbn. now rewrite !app_nil_r. }
  destruct (Receiver.apply_head g (head_of d)) as [t2 [[]|e2]];
    cbn [outcome trace fst snd].
  2:{ split; [|discriminate].
      cbn [drv_calls filter is_drv]. change (filter is_drv ?l) with (drv_calls l).
      rewrite !drv_calls_app. cbn. now rewrite !app_nil_r. }
  split.
  - destruct (outcome (debug_output last now ds));
      cbn [fst drv_calls filter is_drv]; change (filter is_drv ?l) with (drv_calls l);
      rewrite !drv_calls_app, Dq; cbn; now rewrite ?app_nil_r.
  - intros _ Hle. unfold debug_output.
    destruct (Qle_bool_spec (now - last) 1); [reflexivity | contradiction].
Qed.

Lemma receivers_agree_on_dense_witness :
  drv_calls
    (trace (ReceiverWs.on_message (Sample.with_controller Sample.hiwonder_board)
              (Ok (Sample.dense (repeat (VInt 45) 16)))))
  = drv_calls
      (fst (Receiver.do_POST (Sample.with_controller Sample.hiwonder_board) 0 5
              (Sample.post (Sample.dense (repeat (VInt 45) 16))))).
Proof.
  apply (receivers_agree_on_dense (Sample.with_controller Sample.hiwonder_board)
           0 5 (Sample.post (Sample.dense (repeat (VInt 45) 16)))
           [(lit "kind", VStr (lit "humanoid16"));
            (lit "degrees", VList (repeat (VInt 45) 16))]
           (repeat (VInt 45) 16)).
  - intros c H m a v t. injection H as <-. reflexivity.
  - repeat split. exists 200. split; [reflexivity | discriminate].
  - reflexivity.
Defined.

End Agreement.

(** ** The rate limit on one handler, and requests in a row *)

Section OneHandler.
Local Open Scope Q_scope.

(** X19.  [Handler.do_POST] on one handler that has its attributes: a request
    to /servo that arrives when the interval has passed moves [last_at] to
    the clock reading before the body is looked at, so also when the command
    is then rejected with 400; a request that follows within the interval is
    answered 204 and dropped, and leaves the handler as it is.  A malformed
    request thus uses up the interval like a command that is applied. *)
Theorem rate_limit_on_one_handler self last mi t1 t2 req1 req2 :
  Http.path req1 = "/servo"%string -> Http.path req2 = "/servo"%string ->
  TonyPi.last_at self = Some last ->
  TonyPi.min_interval_s self = Some mi ->
  mi <= t1 - last -> t2 - t1 < mi ->
  TonyPi.last_at (fst (TonyPi.do_POST self t1 req1)) = Some t1 /\
  TonyPi.do_POST (fst (TonyPi.do_POST self t1 req1)) t2 req2
  = (fst (TonyPi.do_POST self t1 req1), ([], Ok Http.no_content)).
Proof.
  intros P1 P2 Hl Hm H1 H2.
  assert (E : fst (TonyPi.do_POST self t1 req1) = TonyPi.set_last_at self t1).
  { unfold TonyPi.do_POST. rewrite P1, String.eqb_refl, Hl, Hm. cbn [negb].
    destruct (Qltb_spec (t1 - last) mi); [lra | reflexivity]. }
  rewrite E. split; [reflexivity|].
  unfold TonyPi.do_POST. rewrite P2, String.eqb_refl. cbn [negb].
  cbn [TonyPi.set_last_at TonyPi.last_at TonyPi.min_interval_s]. rewrite Hm.
  destruct (Qltb_spec (t2 - t1) mi); [reflexivity | contradiction].
Qed.

Lemma rate_limit_on_one_handler_witness :
  TonyPi.last_at
    (fst (TonyPi.do_POST
            (TonyPi.configure (Sample.tonypi Sample.hiwonder_controller)
               Sample.args TonyPi.new_handler)
            1000 (Sample.post VNone))) = Some 1000 /\
  TonyPi.do_POST
    (fst (TonyPi.do_POST
            (TonyPi.configure (Sample.tonypi Sample.hiwonder_controller)
               Sample.args TonyPi.new_handler)
            1000 (Sample.post VNone)))
    (1000 + (1 # 100)) (Sample.post Sample.neutral)
  = (fst (TonyPi.do_POST
            (TonyPi.configure (Sample.tonypi Sample.hiwonder_controller)
               Sample.args TonyPi.new_handler)
            1000 (Sample.post VNone)),
     ([], Ok Http.no_content)).
Proof.
  apply (rate_limit_on_one_handler _ 0 (1 # 10)); try reflexivity.
  vm_compute. discriminate.
Defined.

(** X20.  servo_reciever.py keeps nothing of a request but the time of its
    debug line: in a run of requests handled one after another, the driver
    calls made for each are those the same request leads to on its own,
    whatever came before it. *)
Theorem requests_do_not_interfere g last reqs :
  map (fun r => drv_calls (fst r)) (Receiver.serve g last reqs)
  = map (fun x => drv_calls (fst (Receiver.do_POST g 0 0 (snd x)))) reqs.
Proof.
  revert last. induction reqs as [|[now req] reqs IH]; intro last;
    cbn [Receiver.serve map]; [reflexivity|].
  rewrite IH. f_equal. cbn [snd].
  rewrite !Receiver_do_POST_calls.
  destruct (negb (Http.path req =? "/servo")%string); [reflexivity|].
  apply Receiver_do_POST_try_calls.
Qed.

(** X21.  The client and the servers convert an angle between 10 and 170
    degrees to nearly the same pulse: the client truncates where the servers
    round, so the pulse the client sends is the one a server would compute
    from the same angle, or one less. *)
Theorem client_pulse_below_server_pulse (d : Q) (pc ps : Z) :
  10 <= d <= 170 ->
  Client.degrees_to_pulse (Fin d) = Ok pc ->
  Receiver.degrees_to_pulse (num d) = ret ps ->
  (pc <= ps <= pc + 1)%Z.
Proof.
  intros B Ec Es.
  rewrite (client_pulse_inside d B) in Ec.
  rewrite (receiver_conversion_spec Receiver.degrees_to_pulse (num d) d
             (or_introl eq_refl) eq_refl) in Es.
  assert (Pc : pc = Qtrunc (d / 180 * 1000)) by congruence.
  assert (Ps : ps = Spec.degreesToBusPulse d) by (unfold ret in Es; congruence).
  rewrite Pc, Ps. rewrite Qtrunc_floor by (rewrite bus_scale; lra).
  unfold Spec.degreesToBusPulse, Spec.clamp_degrees.
  destruct (Qle_bool_spec d 0); [lra|].
  destruct (Qle_bool_spec 180 d); [lra|].
  apply round_half_even_floor.
Qed.

Lemma client_pulse_below_server_pulse_witness : (555 <= 556 <= 555 + 1)%Z.
Proof.
  apply (client_pulse_below_server_pulse 100 555 556); try reflexivity.
  split; discriminate.
Defined.

End OneHandler.
